(** * Sensor-to-alert pipeline and report priority scoring

    A shallow embedding of the decision logic of the disaster-response
    backend:

    - [Sensor]          models/Sensor.js          readings buffer, threshold classifier
    - [Alert]           models/Alert.js           the alert document and the recent-alert query
    - [SensorService]   services/sensorService.js alert derivation and debounce
    - [DisasterReport]  models/DisasterReport.js  priority score

    Numbers.  A JavaScript [Number] is a binary64 value and is modelled by
    Rocq's primitive [float], so that comparisons treat [NaN] as the
    program does and products such as [5 * 0.5 * 1.2 * 1.5] round as they
    do in the program.  A [Date] time value is an integral number of
    milliseconds and is modelled by [Z].  The integer constants of the
    impact table are kept in [Z].

    Object literals used as lookup tables are finite maps with string
    keys.  The helpers of the sensor service and the arithmetic of the
    score ([DisasterReport]) read them by their own keys, which is what
    the program does for every sensor type and severity the schemas
    admit.  The [calculatePriority] method on a document
    ([ReportDocument]) can be called before validation, with any severity
    string: there the names that an object literal inherits from
    [Object.prototype] are modelled too. *)

From Stdlib Require Import ZArith QArith Lia Bool List.
From Stdlib Require Import Strings.String Strings.Ascii DecimalString.
From Stdlib Require Import Floats.
From stdpp Require Import base option list gmap strings.

Import ListNotations.
Local Open Scope Z_scope.
Local Open Scope string_scope.

#[local] Set Warnings "-inexact-float".

(** ** JavaScript primitives used by the code *)

Module JS.

(** Truthiness of a Number: [0], [-0] and [NaN] are falsy. *)
Definition truthy (x : float) : bool :=
  negb (PrimFloat.is_zero x || PrimFloat.is_nan x).

(** [tbl[key] || dflt] for a table of Numbers. *)
Definition get_or (tbl : gmap string float) (key : string) (dflt : float) : float :=
  match tbl !! key with
  | Some v => if truthy v then v else dflt
  | None => dflt
  end.

(** [s || dflt] for a possibly undefined string: the empty string is falsy. *)
Definition str_or (s : option string) (dflt : string) : string :=
  match s with
  | Some EmptyString => dflt
  | Some v => v
  | None => dflt
  end.

(** [n || dflt] for a possibly undefined integer constant. *)
Definition int_or (n : option Z) (dflt : Z) : Z :=
  match n with
  | Some v => if (v =? 0)%Z then dflt else v
  | None => dflt
  end.

(** [x >= y] on Numbers. *)
Definition ge (x y : float) : bool := PrimFloat.leb y x.

(** [x > y] where [x] may be [undefined]: [undefined] converts to [NaN]
    and every comparison with [NaN] is false. *)
Definition gt_undef (x : option float) (y : float) : bool :=
  match x with
  | Some v => PrimFloat.ltb y v
  | None => false
  end.

(** The float that holds the integer [n] (exact for [|n| < 2^53]). *)
Definition of_Z (n : Z) : float :=
  SF2Prim (binary_normalize prec emax n 0 false).

(** The integer part of a finite float (used to exhibit integer results). *)
Definition trunc (x : float) : Z :=
  match Prim2SF x with
  | S754_finite s m e =>
      let sm := cond_Zopp s (Zpos m) in
      if (0 <=? e)%Z then sm * 2 ^ e else Z.quot sm (2 ^ (- e))
  | _ => 0
  end.

(** [Math.round]: the integer nearest to [x], ties towards +infinity,
    that is [floor (x + 1/2)] computed on the exact value of [x];
    [NaN], the infinities and the zeros are returned unchanged and a
    result of zero keeps the sign of [x]. *)
Definition Math_round (x : float) : float :=
  match Prim2SF x with
  | S754_finite s m e =>
      if (0 <=? e)%Z then x
      else
        let sm := cond_Zopp s (Zpos m) in
        let d := (2 ^ (- e))%Z in
        SF2Prim (binary_normalize prec emax ((2 * sm + d) / (2 * d)) 0 s)
  | _ => x
  end.

(** [Math.min] of two Numbers: [NaN] if either is [NaN]. *)
Definition Math_min (x y : float) : float :=
  if PrimFloat.is_nan x || PrimFloat.is_nan y then PrimFloat.nan
  else if PrimFloat.ltb y x then y else x.

(** [k] zeros. *)
Fixpoint zeros (k : nat) : string :=
  match k with
  | O => ""
  | S k => "0" ++ zeros k
  end.

(** Steps 9-10 of [Number.prototype.toFixed]: the decimal digits of [n]
    with a point before the last [f] of them. *)
Definition place_point (n : Z) (f : nat) : string :=
  let m := NilZero.string_of_uint (N.to_uint (Z.to_N n)) in
  let m := if (String.length m <=? f)%nat
           then zeros (f + 1 - String.length m) ++ m else m in
  let k := String.length m in
  match f with
  | O => m
  | _ => substring 0 (k - f) m ++ "." ++ substring (k - f) f m
  end.

(** [x.toFixed(f)]: [n] is the integer for which [n / 10^f] is nearest to
    the exact value of [|x|], the larger one on a tie.  (From [1e21] on
    the program prints the number in exponent notation instead; readings
    never get there and that branch is not modelled.) *)
Definition toFixed (x : float) (f : nat) : string :=
  match Prim2SF x with
  | S754_nan => "NaN"
  | S754_infinity s => if s then "-Infinity" else "Infinity"
  | S754_zero _ => place_point 0 f
  | S754_finite s m e =>
      let p := (10 ^ Z.of_nat f)%Z in
      let n := if (0 <=? e)%Z then Zpos m * 2 ^ e * p
               else (2 * Zpos m * p + 2 ^ (- e)) / (2 * 2 ^ (- e)) in
      (if s then "-" else "") ++ place_point n f
  end.

End JS.

(** ** models/Sensor.js *)

Module Sensor.

Record Reading := {
  value : float;
  quality : string;
  timestamp : Z
}.

Record Thresholds := {
  warning : float;
  critical : float
}.

Record Coordinates := {
  lat : float;
  lng : float
}.

Record Location := {
  name : string;
  coordinates : Coordinates
}.

Record CurrentReading := {
  cr_value : float;
  cr_timestamp : Z;
  cr_status : string
}.

Record t := {
  sensorId : string;
  type : string;
  location : Location;
  status : string;
  unit : string;
  thresholds : Thresholds;
  currentReading : option CurrentReading;
  readings : list Reading
}.

(** [getAlertStatus] *)
Definition getAlertStatus (s : t) (value : float) : string :=
  if JS.ge value (critical (thresholds s)) then "critical"
  else if JS.ge value (warning (thresholds s)) then "warning"
  else "normal".

(** [a.slice(-n)]: the last [n] elements, all of them if there are fewer. *)
Definition slice_last {A} (n : nat) (a : list A) : list A :=
  drop (length a - n) a.

(** [addReading(value, quality)], with [new Date()] passed in as [now];
    the document returned is the one handed to [save]. *)
Definition addReading (s : t) (value : float) (quality : string) (now : Z) : t :=
  let reading := {| value := value; quality := quality; timestamp := now |} in
  let rs := (readings s ++ [reading])%list in
  let rs := if (1000 <? length rs)%nat then slice_last 1000 rs else rs in
  {| sensorId := sensorId s;
     type := type s;
     location := location s;
     status := status s;
     unit := unit s;
     thresholds := thresholds s;
     currentReading :=
       Some {| cr_value := value;
               cr_timestamp := timestamp reading;
               cr_status := getAlertStatus s value |};
     readings := rs |}.

End Sensor.

(** ** models/Alert.js *)

Module Alert.

Record SensorData := {
  value : float;
  unit : string;
  sensorId : string
}.

Record t := {
  id : string;
  type : string;
  message : string;
  severity : string;
  location : string;
  coordinates : Sensor.Coordinates;
  estimatedImpact : Z;
  acknowledged : bool;
  resolved : bool;
  sensorData : option SensorData;
  createdAt : Z
}.

(** The filter of the recent-alert query of the sensor service:
    [{ 'sensorData.sensorId', type, severity, resolved: false,
       createdAt: { $gte: since } }]. *)
Record Query := {
  q_sensorId : string;
  q_type : string;
  q_severity : string;
  q_since : Z
}.

Definition matches (q : Query) (a : t) : bool :=
  match sensorData a with
  | Some d => String.eqb (sensorId d) (q_sensorId q)
  | None => false
  end
  && String.eqb (type a) (q_type q)
  && String.eqb (severity a) (q_severity q)
  && negb (resolved a)
  && (q_since q <=? createdAt a)%Z.

(** [Alert.findOne(filter)] over the stored alerts. *)
Definition findOne (q : Query) (store : list t) : option t :=
  List.find (matches q) store.

(** [alert.save()] of a new document: the timestamps option stamps
    [createdAt] and the document joins the collection. *)
Definition save (now : Z) (a : t) (store : list t) : list t :=
  (store ++ [ {| id := id a; type := type a; message := message a;
                 severity := severity a; location := location a;
                 coordinates := coordinates a;
                 estimatedImpact := estimatedImpact a;
                 acknowledged := acknowledged a; resolved := resolved a;
                 sensorData := sensorData a; createdAt := now |} ])%list.

End Alert.

(** ** services/sensorService.js *)

Module SensorService.

(** [getAlertType] *)
Definition alertTypeMapping : gmap string string :=
  <["seismic" := "earthquake"]> (<["water_level" := "flood"]>
    (<["wind_speed" := "storm"]> (<["temperature" := "heatwave"]>
      (<["air_quality" := "pollution"]> ∅)))).

Definition getAlertType (sensorType : string) : string :=
  JS.str_or (alertTypeMapping !! sensorType) "other".

(** [generateAlertMessage]: the object of the seven rendered templates,
    then the lookup. *)
Definition messages (value : float) (unit : string) : gmap string string :=
  <["seismic" := "Seismic activity detected: " ++ JS.toFixed value 1 ++ " magnitude"]>
  (<["water_level" := "Rising water levels detected: " ++ JS.toFixed value 1 ++ unit]>
  (<["wind_speed" := "High wind speeds detected: " ++ JS.toFixed value 1 ++ " " ++ unit]>
  (<["temperature" := "Extreme temperature detected: " ++ JS.toFixed value 1 ++ unit]>
  (<["air_quality" := "Poor air quality detected: AQI " ++ JS.toFixed value 0]>
  (<["humidity" := "Unusual humidity levels: " ++ JS.toFixed value 1 ++ unit]>
  (<["pressure" := "Atmospheric pressure anomaly: " ++ JS.toFixed value 1 ++ " " ++ unit]>
   ∅)))))).

Definition generateAlertMessage (sensorType : string) (value : float) (unit : string) : string :=
  JS.str_or (messages value unit !! sensorType)
            ("Sensor anomaly detected: " ++ JS.toFixed value 1 ++ " " ++ unit).

(** [calculateImpact] *)
Definition impactOf (c w : Z) : gmap string Z :=
  <["critical" := c]> (<["warning" := w]> ∅).

Definition baseImpact : gmap string (gmap string Z) :=
  <["seismic" := impactOf 10000 5000]> (<["water_level" := impactOf 8000 4000]>
    (<["wind_speed" := impactOf 6000 3000]> (<["temperature" := impactOf 12000 6000]>
      (<["air_quality" := impactOf 15000 8000]> ∅)))).

Definition calculateImpact (sensorType severity : string) : Z :=
  JS.int_or (match baseImpact !! sensorType with
             | Some row => row !! severity
             | None => None
             end) 1000.

(** [alertStatus === 'critical' ? 'critical' : 'warning'] *)
Definition severityOf (alertStatus : string) : string :=
  if String.eqb alertStatus "critical" then "critical" else "warning".

(** What the debounce is keyed on: sensor, alert type, alert severity. *)
Definition alertKey (sensor : Sensor.t) (newValue : float) : string * string * string :=
  (Sensor.sensorId sensor,
   getAlertType (Sensor.type sensor),
   severityOf (Sensor.getAlertStatus sensor newValue)).

(** The filter passed to [Alert.findOne]. *)
Definition recentQuery (sensor : Sensor.t) (alertStatus : string) (now : Z) : Alert.Query :=
  {| Alert.q_sensorId := Sensor.sensorId sensor;
     Alert.q_type := getAlertType (Sensor.type sensor);
     Alert.q_severity := severityOf alertStatus;
     Alert.q_since := now - 5 * 60 * 1000 |}.

(** [`alert-${Date.now()}-${suffix}`], the suffix being the nine base-36
    characters drawn from [Math.random()]. *)
Definition alertId (now : Z) (suffix : string) : string :=
  "alert-" ++ NilZero.string_of_int (Z.to_int now) ++ "-" ++ suffix.

(** The document built by [new Alert({...})]; [acknowledged] and
    [resolved] take their schema default. *)
Definition newAlert (sensor : Sensor.t) (newValue : float) (alertStatus : string)
    (now : Z) (suffix : string) : Alert.t :=
  {| Alert.id := alertId now suffix;
     Alert.type := getAlertType (Sensor.type sensor);
     Alert.message := generateAlertMessage (Sensor.type sensor) newValue (Sensor.unit sensor);
     Alert.severity := severityOf alertStatus;
     Alert.location := Sensor.name (Sensor.location sensor);
     Alert.coordinates := Sensor.coordinates (Sensor.location sensor);
     Alert.estimatedImpact := calculateImpact (Sensor.type sensor) alertStatus;
     Alert.acknowledged := false;
     Alert.resolved := false;
     Alert.sensorData :=
       Some {| Alert.value := newValue;
               Alert.unit := Sensor.unit sensor;
               Alert.sensorId := Sensor.sensorId sensor |};
     Alert.createdAt := now |}.

(** Lines 46 to 78 of [simulateSensorData]: the alert to create for a
    reading, if any.  The clock reads of one iteration are taken at the
    same instant [now]. *)
Definition alertFor (sensor : Sensor.t) (newValue : float) (now : Z) (suffix : string)
    (store : list Alert.t) : option Alert.t :=
  let alertStatus := Sensor.getAlertStatus sensor newValue in
  if negb (String.eqb alertStatus "normal") then
    match Alert.findOne (recentQuery sensor alertStatus now) store with
    | Some _ => None
    | None => Some (newAlert sensor newValue alertStatus now suffix)
    end
  else None.

(** One iteration of the loop of [simulateSensorData] for a sensor, the
    value drawn for it and the random suffix of the alert id: the reading
    is recorded, then the alert, if any, is saved. *)
Definition iteration (sensor : Sensor.t) (newValue : float) (now : Z) (suffix : string)
    (store : list Alert.t) : Sensor.t * list Alert.t :=
  let sensor' := Sensor.addReading sensor newValue "good" now in
  match alertFor sensor' newValue now suffix store with
  | Some alert => (sensor', Alert.save now alert store)
  | None => (sensor', store)
  end.

(** What one iteration draws from its environment: the simulated value
    (built from [Math.random] and [Math.sin], after the noise and the
    clamp at zero), the random suffix of the alert id, and the clock. *)
Record Draw := {
  d_value : float;
  d_suffix : string;
  d_now : Z
}.

(** [simulateSensorData]: the loop over the active sensors. *)
Definition simulateSensorData (draw : Sensor.t -> Draw) (sensors : list Sensor.t)
    (store : list Alert.t) : list Sensor.t * list Alert.t :=
  let active := List.filter (fun s => String.eqb (Sensor.status s) "active") sensors in
  fold_left
    (fun acc sensor =>
       let d := draw sensor in
       let '(sensor', store') :=
         iteration sensor (d_value d) (d_now d) (d_suffix d) (snd acc) in
       (fst acc ++ [sensor'], store')%list)
    active ([], store).

End SensorService.

(** ** models/DisasterReport.js *)

Module DisasterReport.

Record AffectedPeople := {
  estimated : option float;
  confirmed : option float
}.

Record t := {
  type : string;
  severity : string;
  createdAt : Z;
  affectedPeople : option AffectedPeople
}.

Definition severityMultiplier : gmap string float :=
  <["low" := 0.5%float]> (<["medium" := 1%float]>
    (<["high" := 1.5%float]> (<["critical" := 2%float]> ∅))).

Definition highPriorityTypes : list string :=
  ["earthquake"; "fire"; "building_collapse"; "gas_leak"].

(** [Array.prototype.includes] on a list of strings. *)
Definition includes (l : list string) (x : string) : bool :=
  existsb (String.eqb x) l.

(** [(Date.now() - this.createdAt.getTime()) / (1000 * 60 * 60)].

    The difference of two time values is an exact integer.  The quotient
    is only ever compared with 24 and 48; an integer number of
    milliseconds above [24 * 3600000] gives a quotient at least
    [24 + 1/3600000], many units in the last place above 24, so the
    binary64 quotient exceeds 24 exactly when the rational one does (and
    likewise for 48).  The quotient is therefore kept as a rational. *)
Definition hoursOld (r : t) (now : Z) : Q :=
  (inject_Z (now - createdAt r) / inject_Z (1000 * 60 * 60))%Q.

(** [a > b] on rationals. *)
Definition Qgtb (a b : Q) : bool := negb (Qle_bool a b).

(** [this.affectedPeople?.estimated] *)
Definition estimatedOf (r : t) : option float :=
  match affectedPeople r with
  | Some p => estimated p
  | None => None
  end.

(** The running [priority] after each of the four factors. *)
Definition severityStep (r : t) (priority : float) : float :=
  (priority * JS.get_or severityMultiplier (severity r) 1)%float.

Definition typeStep (r : t) (priority : float) : float :=
  if includes highPriorityTypes (type r) then (priority * 1.5)%float
  else priority.

Definition ageStep (hours : Q) (priority : float) : float :=
  let priority := if Qgtb hours 24 then (priority * 1.2)%float else priority in
  let priority := if Qgtb hours 48 then (priority * 1.5)%float else priority in
  priority.

Definition peopleStep (r : t) (priority : float) : float :=
  if JS.gt_undef (estimatedOf r) 10 then (priority * 1.3)%float else priority.

(** [calculatePriority], with [Date.now()] passed in as [now]. *)
Definition calculatePriority (r : t) (now : Z) : float :=
  let priority := 5%float in
  let priority := severityStep r priority in
  let priority := typeStep r priority in
  let priority := ageStep (hoursOld r now) priority in
  let priority := peopleStep r priority in
  JS.Math_min (JS.Math_round priority) 10.

End DisasterReport.

(** ** The age factor as the specification words it

    "If ageHours > 48, multiply by 1.5; else if ageHours > 24, multiply by
    1.2": one tier only.  Kept apart from the code's [ageStep] so that the
    two can be compared. *)

Module SpecWording.

Definition ageStep_one_tier (hours : Q) (priority : float) : float :=
  if DisasterReport.Qgtb hours 48 then (priority * 1.5)%float
  else if DisasterReport.Qgtb hours 24 then (priority * 1.2)%float
  else priority.

End SpecWording.

(** ** The score by cases

    The score as a function of the severity multiplier and of the outcome
    of the four tests of [calculatePriority]. *)

Module PriorityCases.

Definition scoreOf (m : float) (hp b24 b48 ppl : bool) : float :=
  let p := (5 * m)%float in
  let p := if hp then (p * 1.5)%float else p in
  let p := if b24 then (p * 1.2)%float else p in
  let p := if b48 then (p * 1.5)%float else p in
  let p := if ppl then (p * 1.3)%float else p in
  JS.Math_min (JS.Math_round p) 10.

End PriorityCases.

(** ** Sample data *)

Module Samples.

(** The seismic sensor created by [initializeSensors]. *)
Definition seismic001 : Sensor.t :=
  {| Sensor.sensorId := "seismic-001";
     Sensor.type := "seismic";
     Sensor.location :=
       {| Sensor.name := "Ghaziabad Central";
          Sensor.coordinates := {| Sensor.lat := 28.6692; Sensor.lng := 77.4538 |} |};
     Sensor.status := "active";
     Sensor.unit := "magnitude";
     Sensor.thresholds := {| Sensor.warning := 3.0; Sensor.critical := 4.0 |};
     Sensor.currentReading := None;
     Sensor.readings := [] |}.

(** A sensor whose two thresholds coincide. *)
Definition flatThresholds : Sensor.t :=
  {| Sensor.sensorId := "seismic-002";
     Sensor.type := "seismic";
     Sensor.location := Sensor.location seismic001;
     Sensor.status := "active";
     Sensor.unit := "magnitude";
     Sensor.thresholds := {| Sensor.warning := 4.0; Sensor.critical := 4.0 |};
     Sensor.currentReading := None;
     Sensor.readings := [] |}.

(** A low-severity flood report with no estimate of affected people. *)
Definition lowFlood : DisasterReport.t :=
  {| DisasterReport.type := "flood";
     DisasterReport.severity := "low";
     DisasterReport.createdAt := 0;
     DisasterReport.affectedPeople := None |}.

(** The report of the specification's worked example. *)
Definition highFlood : DisasterReport.t :=
  {| DisasterReport.type := "flood";
     DisasterReport.severity := "high";
     DisasterReport.createdAt := 0;
     DisasterReport.affectedPeople :=
       Some {| DisasterReport.estimated := Some 15%float;
               DisasterReport.confirmed := None |} |}.

Definition hours (h : Z) : Z := h * (1000 * 60 * 60).

(** An instant, and the alert that a critical reading of 4.0 on the
    seismic sensor creates at that instant. *)
Definition t0 : Z := 1700000000000.

Definition firstAlert : Alert.t :=
  SensorService.newAlert seismic001 4 "critical" t0 "k3j9x0a1b".

End Samples.

(** ** models/Sensor.js and models/Alert.js: virtuals, statics, schema enums *)

Module Models.

(** The place of a string in a list (the length of the list if absent). *)
Fixpoint indexOf (x : string) (l : list string) : nat :=
  match l with
  | [] => 0
  | y :: rest => if String.eqb x y then 0 else S (indexOf x rest)
  end.

(** The [enum] of [currentReading.status], from mildest to gravest. *)
Definition statuses : list string := ["normal"; "warning"; "critical"].

(** A run of [addReading] calls, one per [(value, quality, time)]. *)
Definition addReadings (s : Sensor.t) (rs : list (float * string * Z)) : Sensor.t :=
  fold_left (fun acc r => Sensor.addReading acc r.1.1 r.1.2 r.2) rs s.

(** The reading that [addReading] builds from its arguments. *)
Definition readingOf (r : float * string * Z) : Sensor.Reading :=
  {| Sensor.value := r.1.1; Sensor.quality := r.1.2; Sensor.timestamp := r.2 |}.

(** The [latestReading] virtual of a sensor. *)
Definition latestReading (s : Sensor.t) : option Sensor.Reading :=
  last (Sensor.readings s).

Definition isActive (s : Sensor.t) : bool :=
  String.eqb (Sensor.status s) "active".

(** [Sensor.findCritical()]:
    [{ 'currentReading.status': 'critical', status: 'active' }]. *)
Definition findCritical (db : list Sensor.t) : list Sensor.t :=
  List.filter
    (fun s =>
       match Sensor.currentReading s with
       | Some c => String.eqb (Sensor.cr_status c) "critical"
       | None => false
       end && isActive s) db.

(** [Sensor.findOne({ sensorId })]. *)
Definition findSensor (sensorId : string) (db : list Sensor.t) : option Sensor.t :=
  List.find (fun s => String.eqb (Sensor.sensorId s) sensorId) db.

(** [sensor.save()] of a document read from the collection: the stored
    document of that sensor is replaced. *)
Fixpoint saveSensor (s' : Sensor.t) (db : list Sensor.t) : list Sensor.t :=
  match db with
  | [] => []
  | s :: rest =>
      if String.eqb (Sensor.sensorId s) (Sensor.sensorId s') then s' :: rest
      else s :: saveSensor s' rest
  end.

(** What [save()] checks of a reading that was pushed: the [enum] of its
    [quality] and the cast of its [value] to Number, which refuses [NaN]. *)
Definition qualities : list string := ["good"; "fair"; "poor"].

Definition readingAccepted (r : Sensor.Reading) : bool :=
  existsb (String.eqb (Sensor.quality r)) qualities
  && negb (PrimFloat.is_nan (Sensor.value r)).

(** The [enum] of the [type] and [severity] paths of the alert schema. *)
Definition alertTypes : list string :=
  ["earthquake"; "flood"; "storm"; "fire"; "pollution"; "heatwave"; "other"].

Definition alertSeverities : list string :=
  ["critical"; "warning"; "moderate"; "info"].

Definition enumsValid (a : Alert.t) : bool :=
  existsb (String.eqb (Alert.type a)) alertTypes
  && existsb (String.eqb (Alert.severity a)) alertSeverities.

End Models.

(** ** services/sensorService.js: [initializeSensors] *)

Module SensorSeed.

Definition sensorAt (sensorId type name : string) (lat lng : float) (unit : string)
    (warning critical : float) : Sensor.t :=
  {| Sensor.sensorId := sensorId;
     Sensor.type := type;
     Sensor.location :=
       {| Sensor.name := name;
          Sensor.coordinates := {| Sensor.lat := lat; Sensor.lng := lng |} |};
     Sensor.status := "active";
     Sensor.unit := unit;
     Sensor.thresholds := {| Sensor.warning := warning; Sensor.critical := critical |};
     Sensor.currentReading := None;
     Sensor.readings := [] |}.

(** The five documents of [defaultSensors] (no reading recorded yet). *)
Definition defaultSensors : list Sensor.t :=
  [ sensorAt "seismic-001" "seismic" "Ghaziabad Central" 28.6692 77.4538 "magnitude" 3.0 4.0;
    sensorAt "weather-001" "temperature" "Ghaziabad Weather Station" 28.6700 77.4600
             "°C" 35 40;
    sensorAt "air-001" "air_quality" "Ghaziabad Air Quality Monitor" 28.6650 77.4500
             "AQI" 150 200;
    sensorAt "water-001" "water_level" "Hindon River Monitor" 28.6800 77.4400 "m" 6.0 8.0;
    sensorAt "wind-001" "wind_speed" "Ghaziabad Wind Monitor" 28.6600 77.4700 "km/h" 30 50 ].

(** [initializeSensors]: the defaults are saved one by one when
    [Sensor.countDocuments()] is zero. *)
Definition initializeSensors (db : list Sensor.t) : list Sensor.t :=
  if (length db =? 0)%nat then fold_left (fun acc s => (acc ++ [s])%list) defaultSensors db
  else db.

End SensorSeed.

(** ** The debounce as a property of the stored alerts *)

Module Debounce.

(** Same sensor, same alert type, same severity. *)
Definition sameKey (a b : Alert.t) : bool :=
  match Alert.sensorData a, Alert.sensorData b with
  | Some da, Some db => String.eqb (Alert.sensorId da) (Alert.sensorId db)
  | _, _ => false
  end
  && String.eqb (Alert.type a) (Alert.type b)
  && String.eqb (Alert.severity a) (Alert.severity b).

(** Two unresolved alerts of the same key lie more than five minutes apart. *)
Definition spaced (a b : Alert.t) : Prop :=
  sameKey a b = true ->
  Alert.resolved a = false -> Alert.resolved b = false ->
  5 * 60 * 1000 < Z.abs (Alert.createdAt b - Alert.createdAt a).

Definition debounced (store : list Alert.t) : Prop :=
  ForallOrdPairs spaced store.

End Debounce.

(** ** models/DisasterReport.js: the pre-save hook *)

Module ReportDocument.

(** A report document: the fields the score reads, with the two fields
    the hook writes. *)
Record t := {
  reportId : option string;
  priority : float;
  report : DisasterReport.t
}.

(** [`DR-${Date.now()}-${suffix}`], the suffix being the six upper-cased
    base-36 characters drawn from [Math.random()]. *)
Definition newReportId (now : Z) (suffix : string) : string :=
  "DR-" ++ NilZero.string_of_int (Z.to_int now) ++ "-" ++ suffix.

(** [!this.reportId]: undefined or empty. *)
Definition missing (id : option string) : bool :=
  match id with
  | Some (String _ _) => false
  | _ => true
  end.

(** The names every object literal inherits from [Object.prototype]. *)
Definition objectPrototypeNames : list string :=
  ["constructor"; "__defineGetter__"; "__defineSetter__"; "hasOwnProperty";
   "__lookupGetter__"; "__lookupSetter__"; "isPrototypeOf"; "propertyIsEnumerable";
   "toString"; "valueOf"; "__proto__"; "toLocaleString"].

(** [severityMultiplier[this.severity] || 1] as a factor of a product,
    with the prototype chain: an own key gives its number; an inherited
    name gives a function (the prototype object for [__proto__]), which is
    truthy and converts to [NaN]; any other key gives [undefined], hence 1. *)
Definition multiplierOf (sev : string) : float :=
  match DisasterReport.severityMultiplier !! sev with
  | Some _ => JS.get_or DisasterReport.severityMultiplier sev 1
  | None =>
      if DisasterReport.includes objectPrototypeNames sev then PrimFloat.nan
      else 1%float
  end.

(** The value of [Math.min(Math.round(priority), 10)] at the end of
    [calculatePriority], for any severity string. *)
Definition computed (d : t) (now : Z) : float :=
  let r := report d in
  let priority := (5 * multiplierOf (DisasterReport.severity r))%float in
  let priority := DisasterReport.typeStep r priority in
  let priority := DisasterReport.ageStep (DisasterReport.hoursOld r now) priority in
  let priority := DisasterReport.peopleStep r priority in
  JS.Math_min (JS.Math_round priority) 10.

(** [this.priority = v]: a Number path refuses [NaN] (the cast fails) and
    keeps the value it held. *)
Definition setPriority (d : t) (v : float) : t :=
  if PrimFloat.is_nan v then d
  else {| reportId := reportId d; priority := v; report := report d |}.

(** The [calculatePriority] method: the document after the assignment and
    the value returned, which is [this.priority] read back. *)
Definition calculatePriority (d : t) (now : Z) : t * float :=
  let d' := setPriority d (computed d now) in
  (d', priority d').

(** The [pre('save')] hook, on its own; the clock reads of one save are
    taken at the same instant [now]. *)
Definition preSave (d : t) (now : Z) (suffix : string) : t :=
  let d1 :=
    {| reportId := if missing (reportId d) then Some (newReportId now suffix)
                   else reportId d;
       priority := priority d;
       report := report d |} in
  fst (calculatePriority d1 now).

(** The [enum] of the [type] and [severity] paths of the report schema. *)
Definition reportTypes : list string :=
  ["earthquake"; "flood"; "fire"; "storm"; "landslide"; "accident";
   "building_collapse"; "gas_leak"; "water_logging"; "tree_fall";
   "power_outage"; "road_block"; "other"].

Definition severities : list string := ["low"; "medium"; "high"; "critical"].

(** A Number path holds a Number that is not [NaN], or nothing. *)
Definition numberOk (x : option float) : bool :=
  match x with
  | Some v => negb (PrimFloat.is_nan v)
  | None => true
  end.

(** The validation that [save()] runs before any [pre('save')] hook of
    the schema, on the paths of this model: [reportId] is required, [type]
    and [severity] lie in their enums, [priority] lies between its [min]
    and [max], the two counts of affected people are Numbers.  (The other
    required paths, title, description, location and reporter, are taken
    to be valid.) *)
Definition validates (d : t) : bool :=
  negb (missing (reportId d))
  && DisasterReport.includes reportTypes (DisasterReport.type (report d))
  && DisasterReport.includes severities (DisasterReport.severity (report d))
  && PrimFloat.leb 1 (priority d) && PrimFloat.leb (priority d) 10
  && match DisasterReport.affectedPeople (report d) with
     | Some p => numberOk (DisasterReport.estimated p)
                 && numberOk (DisasterReport.confirmed p)
     | None => true
     end.

(** [report.save()]: validation, then the hook; [None] when validation
    refuses the document, in which case the hook does not run. *)
Definition save (d : t) (now : Z) (suffix : string) : option t :=
  if validates d then Some (preSave d now suffix) else None.

(** The document with another severity. *)
Definition docWithSeverity (d : t) (sev : string) : t :=
  {| reportId := reportId d;
     priority := priority d;
     report :=
       {| DisasterReport.type := DisasterReport.type (report d);
          DisasterReport.severity := sev;
          DisasterReport.createdAt := DisasterReport.createdAt (report d);
          DisasterReport.affectedPeople := DisasterReport.affectedPeople (report d) |} |}.

(** The report with another severity. *)
Definition withSeverity (r : DisasterReport.t) (sev : string) : DisasterReport.t :=
  {| DisasterReport.type := DisasterReport.type r;
     DisasterReport.severity := sev;
     DisasterReport.createdAt := DisasterReport.createdAt r;
     DisasterReport.affectedPeople := DisasterReport.affectedPeople r |}.

(** The report with another type. *)
Definition withType (r : DisasterReport.t) (ty : string) : DisasterReport.t :=
  {| DisasterReport.type := ty;
     DisasterReport.severity := DisasterReport.severity r;
     DisasterReport.createdAt := DisasterReport.createdAt r;
     DisasterReport.affectedPeople := DisasterReport.affectedPeople r |}.

(** The report with another estimate of affected people. *)
Definition withEstimate (r : DisasterReport.t) (e : option float) : DisasterReport.t :=
  {| DisasterReport.type := DisasterReport.type r;
     DisasterReport.severity := DisasterReport.severity r;
     DisasterReport.createdAt := DisasterReport.createdAt r;
     DisasterReport.affectedPeople :=
       Some {| DisasterReport.estimated := e; DisasterReport.confirmed := None |} |}.

End ReportDocument.

(** ** routes/sensors.js *)

Module SensorRoutes.

(** [getAQICategory] *)
Definition getAQICategory (aqi : float) : string :=
  if PrimFloat.leb aqi 50 then "Good"
  else if PrimFloat.leb aqi 100 then "Satisfactory"
  else if PrimFloat.leb aqi 200 then "Moderate"
  else if PrimFloat.leb aqi 300 then "Poor"
  else if PrimFloat.leb aqi 400 then "Very Poor"
  else "Severe".

(** The categories from best to worst. *)
Definition categories : list string :=
  ["Good"; "Satisfactory"; "Moderate"; "Poor"; "Very Poor"; "Severe"].

(** The [value] of the body of a request, as far as [typeof] tells. *)
Inductive BodyValue :=
| BNumber (x : float)
| BOther.

Record Response := {
  statusCode : Z;
  message : string;
  currentReading : option Sensor.CurrentReading
}.

(** [POST /:id/readings], with [new Date()] passed in as [now] and the
    [quality] of the body a string or absent.  When the [save()] inside
    [addReading] refuses the reading, the handler lands in its [catch]
    and nothing is stored. *)
Definition postReading (id : string) (value : BodyValue) (quality : option string)
    (now : Z) (db : list Sensor.t) : Response * list Sensor.t :=
  match value with
  | BOther =>
      ({| statusCode := 400; message := "Value must be a number";
          currentReading := None |}, db)
  | BNumber x =>
      match Models.findSensor id db with
      | None =>
          ({| statusCode := 404; message := "Sensor not found";
              currentReading := None |}, db)
      | Some sensor =>
          let q := match quality with Some q => q | None => "good" end in
          let sensor' := Sensor.addReading sensor x q now in
          if Models.readingAccepted
               {| Sensor.value := x; Sensor.quality := q; Sensor.timestamp := now |}
          then
            ({| statusCode := 200; message := "Reading added successfully";
                currentReading := Sensor.currentReading sensor' |},
             Models.saveSensor sensor' db)
          else
            ({| statusCode := 500; message := "Failed to add sensor reading";
                currentReading := None |}, db)
      end
  end.

End SensorRoutes.

(** ** routes/alerts.js *)

Module AlertRoutes.

(** [calculateEstimatedImpact] *)
Definition impactRow (c w m : Z) : gmap string Z :=
  <["critical" := c]> (<["warning" := w]> (<["moderate" := m]> ∅)).

Definition baseImpact : gmap string (gmap string Z) :=
  <["earthquake" := impactRow 10000 5000 1000]> (<["flood" := impactRow 8000 4000 800]>
    (<["storm" := impactRow 6000 3000 600]> (<["fire" := impactRow 5000 2000 500]>
      (<["pollution" := impactRow 15000 8000 2000]> ∅)))).

Definition calculateEstimatedImpact (type severity : string) : Z :=
  JS.int_or (match baseImpact !! type with
             | Some row => row !! severity
             | None => None
             end) 1000.

(** A stored alert: its [_id], the fields of the alert, and the fields
    the acknowledge and resolve routes write.  The routes below are taken
    from the point where the [:id] of the request has been cast to an
    [_id]; a parameter that does not cast makes [findById] throw, which
    the handlers answer with 500. *)
Record Stored := {
  oid : string;
  doc : Alert.t;
  acknowledgedAt : option Z;
  resolvedAt : option Z;
  resolution : option string
}.

(** [Alert.findById(id)] for an id that casts: the search of the
    collection. *)
Definition findById (id : string) (coll : list Stored) : option Stored :=
  List.find (fun d => String.eqb (oid d) id) coll.

(** [alert.save()] of a document read from the collection. *)
Fixpoint saveStored (d' : Stored) (coll : list Stored) : list Stored :=
  match coll with
  | [] => []
  | d :: rest =>
      if String.eqb (oid d) (oid d') then d' :: rest
      else d :: saveStored d' rest
  end.

(** The alert with its two flags set. *)
Definition withFlags (a : Alert.t) (acknowledged resolved : bool) : Alert.t :=
  {| Alert.id := Alert.id a; Alert.type := Alert.type a;
     Alert.message := Alert.message a; Alert.severity := Alert.severity a;
     Alert.location := Alert.location a; Alert.coordinates := Alert.coordinates a;
     Alert.estimatedImpact := Alert.estimatedImpact a;
     Alert.acknowledged := acknowledged; Alert.resolved := resolved;
     Alert.sensorData := Alert.sensorData a; Alert.createdAt := Alert.createdAt a |}.

(** [PATCH /:id/acknowledge] once the id has been cast: the status code
    and the collection after. *)
Definition acknowledge (id : string) (now : Z) (coll : list Stored) : Z * list Stored :=
  match findById id coll with
  | None => (404, coll)
  | Some alert =>
      if Alert.acknowledged (doc alert) then (400, coll)
      else
        (200,
         saveStored
           {| oid := oid alert;
              doc := withFlags (doc alert) true (Alert.resolved (doc alert));
              acknowledgedAt := Some now;
              resolvedAt := resolvedAt alert;
              resolution := resolution alert |} coll)
  end.

(** [PATCH /:id/resolve] once the id has been cast, [given] being the
    [resolution] of the body. *)
Definition resolve (id : string) (given : option string) (now : Z) (coll : list Stored)
    : Z * list Stored :=
  match findById id coll with
  | None => (404, coll)
  | Some alert =>
      if Alert.resolved (doc alert) then (400, coll)
      else
        (200,
         saveStored
           {| oid := oid alert;
              doc := withFlags (doc alert) (Alert.acknowledged (doc alert)) true;
              acknowledgedAt := acknowledgedAt alert;
              resolvedAt := Some now;
              resolution := Some (JS.str_or given "Resolved by system") |} coll)
  end.

(** The alerts of the collection, as the sensor service queries them. *)
Definition alertsOf (coll : list Stored) : list Alert.t := map doc coll.

Section WithCast.

(** Whether the [:id] of a request casts to an [_id]; the rule is the
    driver's and is taken as given. *)
Variable casts : string -> bool.



End WithCast.



End AlertRoutes.

(** ** routes/sensors.js: [generateLocationAlerts] *)

Module LocationAlerts.

(** The fields of the location data that the function reads; each may be
    missing. *)
Record AirQuality := { aqi : option float }.

Record Weather := { windSpeed : option float }.

Record Quake := { magnitude : option float }.

Record LocationData := {
  airQuality : option AirQuality;
  weather : option Weather;
  recentEarthquakes : option (list Quake)
}.

Record LocAlert := {
  type : string;
  severity : string;
  message : string
}.

Section WithShow.

(** How a template literal prints a Number. *)
Variable show : float -> string.

(** [locationData.airQuality?.aqi] and [locationData.weather?.windSpeed]. *)
Definition aqiOf (d : LocationData) : option float :=
  match airQuality d with Some a => aqi a | None => None end.

Definition windOf (d : LocationData) : option float :=
  match weather d with Some w => windSpeed w | None => None end.

(** Each test is false when the field is missing, so the message is only
    ever built from a Number. *)
Definition airAlert (d : LocationData) : list LocAlert :=
  match aqiOf d with
  | Some v =>
      if PrimFloat.ltb 200 v then
        [ {| type := "air_quality";
             severity := if PrimFloat.ltb 300 v then "high" else "medium";
             message := "Poor air quality detected. AQI: " ++ show (JS.Math_round v) |} ]
      else []
  | None => []
  end.

Definition windAlert (d : LocationData) : list LocAlert :=
  match windOf d with
  | Some v =>
      if PrimFloat.ltb 30 v then
        [ {| type := "weather";
             severity := if PrimFloat.ltb 50 v then "high" else "medium";
             message := "High wind speeds: " ++ show (JS.Math_round v) ++ " km/h" |} ]
      else []
  | None => []
  end.

Definition quakeAlert (d : LocationData) : list LocAlert :=
  match recentEarthquakes d with
  | Some (recentQuake :: _) =>
      match magnitude recentQuake with
      | Some m =>
          if PrimFloat.ltb 4.0 m then
            [ {| type := "seismic";
                 severity := "high";
                 message := "Recent earthquake: " ++ show m ++ " magnitude" |} ]
          else []
      | None => []
      end
  | _ => []
  end.

(** [generateLocationAlerts]: the three pushes, in order. *)
Definition generateLocationAlerts (d : LocationData) : list LocAlert :=
  (airAlert d ++ windAlert d ++ quakeAlert d)%list.

End WithShow.

(** The location data with another list of earthquakes. *)
Definition withQuakes (d : LocationData) (qs : option (list Quake)) : LocationData :=
  {| airQuality := airQuality d; weather := weather d; recentEarthquakes := qs |}.

End LocationAlerts.

(** * The priority score *)

Section PriorityScore.
Import DisasterReport PriorityCases.

Lemma calculatePriority_scoreOf r now :
  calculatePriority r now =
  scoreOf (JS.get_or severityMultiplier (severity r) 1)
          (includes highPriorityTypes (type r))
          (Qgtb (hoursOld r now) 24) (Qgtb (hoursOld r now) 48)
          (JS.gt_undef (estimatedOf r) 10).
Proof.
  unfold calculatePriority, scoreOf, severityStep, typeStep, ageStep, peopleStep.
  destruct (includes _ _), (Qgtb _ 24), (Qgtb _ 48), (JS.gt_undef _ _); reflexivity.
Qed.

(** Whatever the severity string, the multiplier is one of four values;
    an unknown severity gets 1. *)
Lemma severity_multiplier_cases sev :
  let m := JS.get_or severityMultiplier sev 1 in
  m = 0.5%float \/ m = 1%float \/ m = 1.5%float \/ m = 2%float.
Proof.
  unfold JS.get_or, severityMultiplier.
  destruct (decide (sev = "low")) as [->|Hl]; [left; reflexivity|].
  destruct (decide (sev = "medium")) as [->|Hm]; [right; left; reflexivity|].
  destruct (decide (sev = "high")) as [->|Hh]; [right; right; left; reflexivity|].
  destruct (decide (sev = "critical")) as [->|Hc]; [right; right; right; reflexivity|].
  rewrite !lookup_insert_ne, lookup_empty by congruence.
  right; left; reflexivity.
Qed.

Lemma Qgtb_true a b : Qgtb a b = true <-> (b < a)%Q.
Proof.
  unfold Qgtb. rewrite negb_true_iff, <- not_true_iff_false, Qle_bool_iff.
  split; [apply Qnot_le_lt | apply Qlt_not_le].
Qed.

Lemma Qgtb_false a b : Qgtb a b = false <-> (a <= b)%Q.
Proof.
  unfold Qgtb. rewrite negb_false_iff. apply Qle_bool_iff.
Qed.

Lemma hoursOld_mono r now1 now2 :
  now1 <= now2 -> (hoursOld r now1 <= hoursOld r now2)%Q.
Proof.
  intros H. unfold hoursOld, Qdiv.
  apply Qmult_le_compat_r.
  - rewrite <- Zle_Qle. lia.
  - vm_compute. discriminate.
Qed.

(** A tier that has been reached stays reached. *)
Lemma tier_mono r now1 now2 k :
  now1 <= now2 ->
  Qgtb (hoursOld r now1) k = true -> Qgtb (hoursOld r now2) k = true.
Proof.
  intros H. rewrite !Qgtb_true. intros Hk.
  eapply Qlt_le_trans; [exact Hk | apply hoursOld_mono, H].
Qed.

(** The age in hours exceeds [k] exactly when the age in milliseconds
    exceeds [k] hours. *)
Lemma tier_ms r now k :
  Qgtb (hoursOld r now) (inject_Z k) = true <-> k * 3600000 < now - createdAt r.
Proof.
  rewrite Qgtb_true. unfold hoursOld, Qlt, Qdiv. simpl. lia.
Qed.

(** The worked example of the specification: a high-severity flood, 15
    people affected, 30 hours old: 5 * 1.5 * 1.2 * 1.3 = 11.7, rounded to
    12 and capped at 10. *)
Example priority_worked_example :
  calculatePriority Samples.highFlood (Samples.hours 30) = 10%float.
Proof. vm_compute. reflexivity. Qed.

(** C1 (as amended): the two age tests are independent statements, so the
    tiers accumulate: past 48 hours the running priority is multiplied by
    1.2 and then by 1.5, between 24 (excluded) and 48 (included) hours by
    1.2 only, and up to 24 hours it is left as it is. *)
Theorem C1_age_tiers_accumulate (hours : Q) (p : float) :
  ((48 < hours)%Q -> ageStep hours p = (p * 1.2 * 1.5)%float) /\
  ((24 < hours)%Q /\ (hours <= 48)%Q -> ageStep hours p = (p * 1.2)%float) /\
  ((hours <= 24)%Q -> ageStep hours p = p).
Proof.
  unfold ageStep. repeat split.
  - intros H. assert (H24 : (24 < hours)%Q) by (eapply Qlt_trans; [|exact H]; reflexivity).
    apply Qgtb_true in H, H24. rewrite H, H24. reflexivity.
  - intros [H24 H48]. apply Qgtb_true in H24. apply Qgtb_false in H48.
    rewrite H24, H48. reflexivity.
  - intros H. assert (H48 : (hours <= 48)%Q) by (eapply Qle_trans; [exact H|]; discriminate).
    apply Qgtb_false in H, H48. rewrite H, H48. reflexivity.
Qed.

Lemma C1_age_tiers_accumulate_witness :
  ageStep 49 2.5 = (2.5 * 1.2 * 1.5)%float /\
  ageStep 30 2.5 = (2.5 * 1.2)%float /\
  ageStep 3 2.5 = 2.5%float.
Proof.
  destruct (C1_age_tiers_accumulate 49 2.5) as [H1 _].
  destruct (C1_age_tiers_accumulate 30 2.5) as [_ [H2 _]].
  destruct (C1_age_tiers_accumulate 3 2.5) as [_ [_ H3]].
  split; [apply H1; reflexivity|].
  split; [apply H2; split; [reflexivity | discriminate]|].
  apply H3. discriminate.
Defined.

(** C1 (as stated) fails: for a running priority of 2.5 and an age of 49
    hours the code yields 2.5 * 1.2 * 1.5 = 4.5 where a single tier would
    yield 2.5 * 1.5 = 3.75; a low-severity flood report of that age
    scores 5, not 4. *)
Lemma C1_one_tier_counterexample :
  ageStep 49 2.5 = 4.5%float /\
  SpecWording.ageStep_one_tier 49 2.5 = 3.75%float /\
  ageStep 49 2.5 <> SpecWording.ageStep_one_tier 49 2.5 /\
  calculatePriority Samples.lowFlood (Samples.hours 49) = 5%float /\
  JS.Math_min (JS.Math_round (SpecWording.ageStep_one_tier 49 2.5)) 10 = 4%float.
Proof.
  repeat split; try (vm_compute; reflexivity).
  intros H. apply (f_equal (fun x => PrimFloat.eqb x 4.5)) in H.
  vm_compute in H. discriminate.
Qed.

(** The arithmetic of the score yields an integer between 1 and 10. *)
Lemma formula_in_range (r : t) (now : Z) :
  exists n : Z, calculatePriority r now = JS.of_Z n /\ 1 <= n <= 10.
Proof.
  rewrite calculatePriority_scoreOf.
  pose proof (severity_multiplier_cases (severity r)) as Hm. cbv zeta in Hm.
  destruct Hm as [Hm | [Hm | [Hm | Hm]]]; rewrite Hm;
    destruct (includes _ _), (Qgtb _ 24), (Qgtb _ 48), (JS.gt_undef _ _);
    match goal with
    | |- exists n, ?s = _ /\ _ =>
        let v := eval vm_compute in (JS.trunc s) in exists v
    end;
    (split; [vm_compute; reflexivity | lia]).
Qed.

Lemma small_int_float n :
  1 <= n <= 10 ->
  PrimFloat.is_nan (JS.of_Z n) = false /\
  PrimFloat.leb 1 (JS.of_Z n) = true /\ PrimFloat.leb (JS.of_Z n) 10 = true.
Proof.
  intros H. set (k := Z.to_nat n).
  assert (En : n = Z.of_nat k) by lia.
  assert (Hk : (1 <= k <= 10)%nat) by lia.
  clearbody k. subst n.
  do 11 (destruct k as [|k]; [first [lia | repeat split; vm_compute; reflexivity]|]).
  lia.
Qed.

Lemma includes_In l x : includes l x = true <-> In x l.
Proof.
  unfold includes. rewrite existsb_exists. split.
  - intros (y & Hy & E). apply String.eqb_eq in E. subst y. exact Hy.
  - intros H. exists x. split; [exact H | apply String.eqb_refl].
Qed.

Lemma includes_not_In l x : includes l x = false <-> ~ In x l.
Proof.
  rewrite <- includes_In. destruct (includes l x); split; intros H; try reflexivity.
  - discriminate.
  - contradiction H. reflexivity.
  - intros E. discriminate.
Qed.

(** Off the inherited names the method computes what the arithmetic of
    the score gives. *)
Lemma computed_formula (d : ReportDocument.t) now :
  ~ In (severity (ReportDocument.report d)) ReportDocument.objectPrototypeNames ->
  ReportDocument.computed d now = calculatePriority (ReportDocument.report d) now.
Proof.
  intros H. apply includes_not_In in H.
  unfold ReportDocument.computed, calculatePriority, severityStep.
  unfold ReportDocument.multiplierOf. rewrite H. unfold JS.get_or.
  destruct (severityMultiplier !! severity (ReportDocument.report d)); reflexivity.
Qed.

(** On an inherited name every product is [NaN]. *)
Lemma computed_inherited (d : ReportDocument.t) now :
  In (severity (ReportDocument.report d)) ReportDocument.objectPrototypeNames ->
  ReportDocument.computed d now = PrimFloat.nan.
Proof.
  intros H.
  assert (E : ReportDocument.multiplierOf (severity (ReportDocument.report d))
              = PrimFloat.nan).
  { unfold ReportDocument.objectPrototypeNames in H. cbn [In] in H.
    repeat (destruct H as [<- | H]; [vm_compute; reflexivity|]). contradiction. }
  unfold ReportDocument.computed. cbv zeta. rewrite E.
  unfold typeStep, ageStep, peopleStep.
  destruct (includes _ _), (Qgtb _ 24), (Qgtb _ 48), (JS.gt_undef _ _);
    vm_compute; reflexivity.
Qed.

Lemma method_formula (d : ReportDocument.t) now :
  ~ In (severity (ReportDocument.report d)) ReportDocument.objectPrototypeNames ->
  ReportDocument.calculatePriority d now
  = ({| ReportDocument.reportId := ReportDocument.reportId d;
        ReportDocument.priority := calculatePriority (ReportDocument.report d) now;
        ReportDocument.report := ReportDocument.report d |},
     calculatePriority (ReportDocument.report d) now).
Proof.
  intros H. unfold ReportDocument.calculatePriority, ReportDocument.setPriority.
  cbv zeta. rewrite (computed_formula d now H).
  destruct (formula_in_range (ReportDocument.report d) now) as (n & -> & Hn).
  destruct (small_int_float n Hn) as (-> & _). reflexivity.
Qed.

Lemma method_inherited (d : ReportDocument.t) now :
  In (severity (ReportDocument.report d)) ReportDocument.objectPrototypeNames ->
  ReportDocument.calculatePriority d now = (d, ReportDocument.priority d).
Proof.
  intros H. unfold ReportDocument.calculatePriority, ReportDocument.setPriority.
  cbv zeta. rewrite (computed_inherited d now H). reflexivity.
Qed.



(** C5: evaluating the same report later never lowers its score. *)
Theorem C5_priority_monotone_in_time (r : t) (now1 now2 : Z) :
  now1 <= now2 ->
  PrimFloat.leb (calculatePriority r now1) (calculatePriority r now2) = true.
Proof.
  intros H.
  pose proof (tier_mono r now1 now2 24 H) as H24.
  pose proof (tier_mono r now1 now2 48 H) as H48.
  rewrite !calculatePriority_scoreOf.
  pose proof (severity_multiplier_cases (severity r)) as Hm. cbv zeta in Hm.
  destruct Hm as [Hm | [Hm | [Hm | Hm]]]; rewrite Hm;
    destruct (includes _ _), (JS.gt_undef _ _),
             (Qgtb (hoursOld r now1) 24), (Qgtb (hoursOld r now1) 48),
             (Qgtb (hoursOld r now2) 24), (Qgtb (hoursOld r now2) 48);
    try (discriminate (H24 eq_refl)); try (discriminate (H48 eq_refl));
    vm_compute; reflexivity.
Qed.

Lemma C5_priority_monotone_in_time_witness :
  PrimFloat.leb (calculatePriority Samples.lowFlood (Samples.hours 3))
                (calculatePriority Samples.lowFlood (Samples.hours 49)) = true.
Proof.
  apply (C5_priority_monotone_in_time Samples.lowFlood (Samples.hours 3) (Samples.hours 49)).
  vm_compute. discriminate.
Defined.


End PriorityScore.

(** * The threshold classifier and the readings buffer *)

Section SensorModel.
Import Sensor.

(** Two floats that compare equal compare equal the other way round. *)
Lemma SFcompare_Eq_sym x y :
  SFcompare x y = Some Eq -> SFcompare y x = Some Eq.
Proof.
  destruct x as [sx | sx | | sx mx ex], y as [sy | sy | | sy my ey]; simpl;
    try destruct sx; try destruct sy; try congruence.
  - destruct (Z.compare ex ey) eqn:He; try discriminate.
    apply Z.compare_eq in He. subst ey. rewrite Z.compare_refl.
    intros H. injection H as H. apply (f_equal CompOpp) in H. simpl in H.
    rewrite CompOpp_involutive in H.
    apply Pos.compare_eq in H. subst my.
    fold (Pos.compare mx mx). rewrite Pos.compare_refl. reflexivity.
  - destruct (Z.compare ex ey) eqn:He; try discriminate.
    apply Z.compare_eq in He. subst ey. rewrite Z.compare_refl.
    intros H. injection H as H.
    apply Pos.compare_eq in H. subst my.
    fold (Pos.compare mx mx). rewrite Pos.compare_refl. reflexivity.
Qed.

(** [x == y] entails [x >= y] on Numbers. *)
Lemma float_eqb_ge x y : PrimFloat.eqb x y = true -> JS.ge x y = true.
Proof.
  unfold JS.ge. rewrite FloatAxioms.eqb_spec, FloatAxioms.leb_spec.
  unfold SFeqb, SFleb.
  destruct (SFcompare (Prim2SF x) (Prim2SF y)) as [[| |]|] eqn:Hc; try discriminate.
  intros _. rewrite (SFcompare_Eq_sym _ _ Hc). reflexivity.
Qed.

(** C3 (as amended): the classifier answers critical when
    [value >= critical], otherwise warning when [value >= warning],
    otherwise normal; both tests are inclusive: a value equal to the
    critical threshold is critical, and a value equal to the warning
    threshold is warning provided it is not also at or above the critical
    threshold. *)
Theorem C3_classifier_rule (s : t) (v : float) :
  (JS.ge v (critical (thresholds s)) = true -> getAlertStatus s v = "critical") /\
  (JS.ge v (critical (thresholds s)) = false ->
   JS.ge v (warning (thresholds s)) = true -> getAlertStatus s v = "warning") /\
  (JS.ge v (critical (thresholds s)) = false ->
   JS.ge v (warning (thresholds s)) = false -> getAlertStatus s v = "normal") /\
  (PrimFloat.eqb v (critical (thresholds s)) = true -> getAlertStatus s v = "critical") /\
  (PrimFloat.eqb v (warning (thresholds s)) = true ->
   JS.ge v (critical (thresholds s)) = false -> getAlertStatus s v = "warning").
Proof.
  unfold getAlertStatus. repeat split.
  - intros ->. reflexivity.
  - intros -> ->. reflexivity.
  - intros -> ->. reflexivity.
  - intros H. rewrite (float_eqb_ge _ _ H). reflexivity.
  - intros H ->. rewrite (float_eqb_ge _ _ H). reflexivity.
Qed.

Lemma C3_classifier_rule_witness :
  getAlertStatus Samples.seismic001 4.2 = "critical" /\
  getAlertStatus Samples.seismic001 3.5 = "warning" /\
  getAlertStatus Samples.seismic001 2.5 = "normal" /\
  getAlertStatus Samples.seismic001 4 = "critical" /\
  getAlertStatus Samples.seismic001 3 = "warning".
Proof.
  destruct (C3_classifier_rule Samples.seismic001 4.2) as (H1 & _).
  destruct (C3_classifier_rule Samples.seismic001 3.5) as (_ & H2 & _).
  destruct (C3_classifier_rule Samples.seismic001 2.5) as (_ & _ & H3 & _).
  destruct (C3_classifier_rule Samples.seismic001 4) as (_ & _ & _ & H4 & _).
  destruct (C3_classifier_rule Samples.seismic001 3) as (_ & _ & _ & _ & H5).
  split; [apply H1; reflexivity|].
  split; [apply H2; reflexivity|].
  split; [apply H3; reflexivity|].
  split; [apply H4; reflexivity|].
  apply H5; reflexivity.
Defined.

(** C3 (as stated) fails: with both thresholds at 4.0 a value of 4.0
    equals the warning threshold and yet classifies as critical. *)
Lemma C3_warning_boundary_counterexample :
  PrimFloat.eqb 4 (warning (thresholds Samples.flatThresholds)) = true /\
  getAlertStatus Samples.flatThresholds 4 = "critical" /\
  getAlertStatus Samples.flatThresholds 4 <> "warning".
Proof.
  repeat split; try reflexivity. vm_compute. discriminate.
Qed.

Lemma slice_last_suffix {A} (n : nat) (a : list A) : suffix (slice_last n a) a.
Proof. unfold slice_last. apply suffix_drop. Qed.

Lemma slice_last_length {A} (n : nat) (a : list A) :
  length (slice_last n a) = Nat.min n (length a).
Proof. unfold slice_last. rewrite length_drop. lia. Qed.

(** The buffer after [addReading] is the last 1000 entries of the old
    buffer extended by the new reading. *)
Lemma addReading_readings s v q now :
  readings (addReading s v q now) =
  slice_last 1000 (readings s ++ [ {| value := v; quality := q; timestamp := now |} ]).
Proof.
  unfold addReading. cbn [readings].
  destruct (Nat.ltb_spec 1000 (length (readings s ++ [ {| value := v; quality := q; timestamp := now |} ]))) as [H | H].
  - reflexivity.
  - unfold slice_last.
    replace (length _ - 1000)%nat with 0%nat by lia. reflexivity.
Qed.

(** C9: after every [addReading] the buffer holds at most 1000 readings;
    it is the tail of the old buffer followed by the new reading, so what
    is dropped is dropped from the old end, the new reading is last, and
    the length is the smaller of 1000 and the old length plus one. *)
Theorem C9_readings_capped (s : t) (v : float) (q : string) (now : Z) :
  let r := {| value := v; quality := q; timestamp := now |} in
  let s' := addReading s v q now in
  (length (readings s') <= 1000)%nat /\
  length (readings s') = Nat.min 1000 (length (readings s) + 1) /\
  (exists evicted,
      (readings s ++ [r])%list = (evicted ++ readings s')%list /\
      length evicted = (length (readings s) + 1 - 1000)%nat) /\
  last (readings s') = Some r.
Proof.
  intros r s'. subst s'. rewrite addReading_readings. fold r.
  pose proof (slice_last_length 1000 (readings s ++ [r])) as Hlen.
  rewrite length_app in Hlen. cbn [length] in Hlen.
  repeat split.
  - lia.
  - lia.
  - destruct (slice_last_suffix 1000 (readings s ++ [r])) as [ev Hev].
    exists ev. split; [exact Hev|].
    apply (f_equal length) in Hev. rewrite !length_app in Hev. cbn [length] in Hev. lia.
  - destruct (slice_last_suffix 1000 (readings s ++ [r])) as [ev Hev].
    destruct (slice_last 1000 (readings s ++ [r])) as [|x l] eqn:Hs using rev_ind.
    + cbn [length] in Hlen. lia.
    + rewrite app_assoc in Hev. apply app_inj_tail in Hev as [_ ->].
      apply last_snoc.
Qed.

End SensorModel.

(** * Alert derivation and debounce *)

Section AlertPipeline.
Import SensorService.

(** [toFixed] on a few values: ties on the exact binary value go up
    ([4.25] is exact, [1.45] lies just below the tie), a negative value
    that rounds to zero keeps its sign, and short digit strings are padded. *)
Example toFixed_examples :
  JS.toFixed 4.25 1 = "4.3" /\ JS.toFixed 1.45 1 = "1.4" /\
  JS.toFixed 4 1 = "4.0" /\ JS.toFixed 0.04 1 = "0.0" /\
  JS.toFixed (-0.04) 1 = "-0.0" /\ JS.toFixed 187.5 0 = "188" /\
  JS.toFixed 1234.5678 2 = "1234.57".
Proof. repeat split; vm_compute; reflexivity. Qed.

Lemma getAlertStatus_cases s v :
  Sensor.getAlertStatus s v = "critical" \/
  Sensor.getAlertStatus s v = "warning" \/
  Sensor.getAlertStatus s v = "normal".
Proof.
  unfold Sensor.getAlertStatus.
  destruct (JS.ge v _); [left; reflexivity|].
  destruct (JS.ge v _); [right; left | right; right]; reflexivity.
Qed.

(** Recording a reading does not change how values are classified. *)
Lemma getAlertStatus_addReading s v q now v' :
  Sensor.getAlertStatus (Sensor.addReading s v q now) v' = Sensor.getAlertStatus s v'.
Proof. reflexivity. Qed.

Lemma alertFor_addReading s v q now v' now' suf store :
  alertFor (Sensor.addReading s v q now) v' now' suf store = alertFor s v' now' suf store.
Proof. reflexivity. Qed.

(** A status other than normal is its own severity. *)
Lemma severityOf_status s v :
  Sensor.getAlertStatus s v <> "normal" ->
  severityOf (Sensor.getAlertStatus s v) = Sensor.getAlertStatus s v.
Proof.
  destruct (getAlertStatus_cases s v) as [-> | [-> | ->]]; try reflexivity.
  intros H. contradiction H. reflexivity.
Qed.

Lemma findOne_None q store :
  Alert.findOne q store = None <-> (forall a, In a store -> Alert.matches q a = false).
Proof.
  unfold Alert.findOne. split.
  - intros H a Ha. exact (find_none _ _ H a Ha).
  - induction store as [|b store IH]; intros H; [reflexivity|].
    cbn [find]. rewrite (H b (or_introl eq_refl)).
    apply IH. intros a Ha. apply H. right. exact Ha.
Qed.

(** The alert, when there is one, is the document built from the sensor
    and the reading. *)
Lemma alertFor_Some s v now suf store a :
  alertFor s v now suf store = Some a ->
  Sensor.getAlertStatus s v <> "normal" /\
  Alert.findOne (recentQuery s (Sensor.getAlertStatus s v) now) store = None /\
  a = newAlert s v (Sensor.getAlertStatus s v) now suf.
Proof.
  unfold alertFor.
  destruct (String.eqb_spec (Sensor.getAlertStatus s v) "normal") as [E | E];
    cbn [negb]; [discriminate|].
  destruct (Alert.findOne _ store); [discriminate|].
  intros H. injection H as <-. auto.
Qed.

Lemma alertFor_fresh s v now suf store :
  Sensor.getAlertStatus s v <> "normal" ->
  Alert.findOne (recentQuery s (Sensor.getAlertStatus s v) now) store = None ->
  alertFor s v now suf store = Some (newAlert s v (Sensor.getAlertStatus s v) now suf).
Proof.
  intros Hn Hf. unfold alertFor.
  destruct (String.eqb_spec (Sensor.getAlertStatus s v) "normal") as [E | E];
    [contradiction|].
  cbn [negb]. rewrite Hf. reflexivity.
Qed.

(** The filter only depends on the key and on the time of the query. *)
Lemma recentQuery_key s1 v1 s2 v2 now :
  alertKey s1 v1 = alertKey s2 v2 ->
  recentQuery s1 (Sensor.getAlertStatus s1 v1) now =
  recentQuery s2 (Sensor.getAlertStatus s2 v2) now.
Proof.
  unfold alertKey, recentQuery. intros H. injection H as -> -> ->. reflexivity.
Qed.

(** An alert that answers the query at a later instant answers it at an
    earlier one: the window only has a lower end. *)
Lemma matches_earlier s st now1 now2 a :
  now1 <= now2 ->
  Alert.matches (recentQuery s st now2) a = true ->
  Alert.matches (recentQuery s st now1) a = true.
Proof.
  intros H. unfold Alert.matches, recentQuery. cbn.
  rewrite !andb_true_iff, !Z.leb_le. intuition lia.
Qed.

(** The alert just saved answers a query of its own key exactly when it
    was created inside the window of that query. *)
Lemma matches_saved s v now1 suf now2 store a :
  In a (Alert.save now1 (newAlert s v (Sensor.getAlertStatus s v) now1 suf) store) ->
  In a store \/
  Alert.matches (recentQuery s (Sensor.getAlertStatus s v) now2) a
  = (now2 - 5 * 60 * 1000 <=? now1)%Z.
Proof.
  unfold Alert.save. rewrite in_app_iff. intros [H | [<- | []]]; [left; exact H|].
  right. unfold Alert.matches, recentQuery, newAlert. cbn.
  rewrite !String.eqb_refl. reflexivity.
Qed.

Lemma alertFor_suppressed s v now suf store a :
  In a store ->
  Alert.matches (recentQuery s (Sensor.getAlertStatus s v) now) a = true ->
  alertFor s v now suf store = None.
Proof.
  intros Ha Hm. unfold alertFor.
  destruct (negb _); [|reflexivity].
  destruct (Alert.findOne _ store) eqn:Hf; [reflexivity|].
  rewrite findOne_None in Hf. rewrite (Hf a Ha) in Hm. discriminate.
Qed.

(** C2: the five-minute debounce per sensor, alert type and severity.
    (1) While the store holds an unresolved alert of the same key created
    at or after [now - 5 min], an evaluation creates nothing.
    (2) Starting from a store with no such alert, the first evaluation
    creates an alert, and a second evaluation of the same key at most five
    minutes later creates nothing, whatever else was stored in between.
    (3) If instead the second evaluation comes more than five minutes
    after the first and nothing stored in between answers its query, both
    evaluations create an alert. *)
Theorem C2_debounce_window :
  (forall s v now suf store a,
      In a store ->
      Alert.matches (recentQuery s (Sensor.getAlertStatus s v) now) a = true ->
      alertFor s v now suf store = None) /\
  (forall s1 v1 s2 v2 now1 now2 suf1 suf2 store later,
      alertKey s1 v1 = alertKey s2 v2 ->
      Sensor.getAlertStatus s1 v1 <> "normal" ->
      Alert.findOne (recentQuery s1 (Sensor.getAlertStatus s1 v1) now1) store = None ->
      now2 - 5 * 60 * 1000 <= now1 ->
      exists a1,
        alertFor s1 v1 now1 suf1 store = Some a1 /\
        alertFor s2 v2 now2 suf2 (Alert.save now1 a1 store ++ later) = None) /\
  (forall s1 v1 s2 v2 now1 now2 suf1 suf2 store later,
      alertKey s1 v1 = alertKey s2 v2 ->
      Sensor.getAlertStatus s1 v1 <> "normal" ->
      Sensor.getAlertStatus s2 v2 <> "normal" ->
      Alert.findOne (recentQuery s1 (Sensor.getAlertStatus s1 v1) now1) store = None ->
      now1 + 5 * 60 * 1000 < now2 ->
      Alert.findOne (recentQuery s2 (Sensor.getAlertStatus s2 v2) now2) later = None ->
      exists a1 a2,
        alertFor s1 v1 now1 suf1 store = Some a1 /\
        alertFor s2 v2 now2 suf2 (Alert.save now1 a1 store ++ later) = Some a2).
Proof.
  split; [exact alertFor_suppressed|]. split.
  - intros s1 v1 s2 v2 now1 now2 suf1 suf2 store later Hk Hn Hf Hw.
    eexists. split; [apply alertFor_fresh; assumption|].
    eapply alertFor_suppressed.
    + apply in_app_iff. left. unfold Alert.save. apply in_app_iff.
      right. left. reflexivity.
    + rewrite <- (recentQuery_key _ _ _ _ now2 Hk).
      unfold Alert.matches, recentQuery, newAlert. cbn.
      rewrite !String.eqb_refl. cbn. apply Z.leb_le. lia.
  - intros s1 v1 s2 v2 now1 now2 suf1 suf2 store later Hk Hn1 Hn2 Hf Hw Hl.
    eexists. eexists. split; [apply alertFor_fresh; assumption|].
    apply alertFor_fresh; [exact Hn2|].
    apply findOne_None. intros a Ha.
    apply in_app_iff in Ha as [Ha | Ha].
    + rewrite <- (recentQuery_key _ _ _ _ now2 Hk).
      apply (matches_saved _ _ _ _ now2) in Ha as [Ha | ->].
      * rewrite findOne_None in Hf. specialize (Hf a Ha).
        destruct (Alert.matches (recentQuery s1 _ now2) a) eqn:Hm; [|reflexivity].
        apply (matches_earlier _ _ now1) in Hm; [congruence | lia].
      * apply Z.leb_gt. lia.
    + rewrite findOne_None in Hl. exact (Hl a Ha).
Qed.

Lemma C2_debounce_window_witness :
  alertFor Samples.seismic001 4.5 (Samples.t0 + 1000) "q7w8e9r0t"
           [Samples.firstAlert] = None /\
  (exists a1,
      alertFor Samples.seismic001 4 Samples.t0 "k3j9x0a1b" [] = Some a1 /\
      alertFor Samples.seismic001 4.5 (Samples.t0 + 5 * 60 * 1000) "q7w8e9r0t"
               (Alert.save Samples.t0 a1 [] ++ []) = None) /\
  (exists a1 a2,
      alertFor Samples.seismic001 4 Samples.t0 "k3j9x0a1b" [] = Some a1 /\
      alertFor Samples.seismic001 4.5 (Samples.t0 + 5 * 60 * 1000 + 1000) "q7w8e9r0t"
               (Alert.save Samples.t0 a1 [] ++ []) = Some a2).
Proof.
  destruct C2_debounce_window as (P1 & P2 & P3).
  split; [|split].
  - apply (P1 _ _ _ _ _ Samples.firstAlert); [left; reflexivity | vm_compute; reflexivity].
  - apply P2; [reflexivity | vm_compute; discriminate | reflexivity
              | vm_compute; discriminate].
  - apply P3; [reflexivity | vm_compute; discriminate | vm_compute; discriminate
              | reflexivity | vm_compute; reflexivity | reflexivity].
Defined.

(** C8: a reading classified as normal (so not at or above the warning
    threshold) creates no alert and leaves the stored alerts as they are,
    whatever they are. *)
Theorem C8_normal_creates_nothing (s : Sensor.t) (v : float) (now : Z)
    (suf : string) (store : list Alert.t) :
  Sensor.getAlertStatus s v = "normal" ->
  JS.ge v (Sensor.warning (Sensor.thresholds s)) = false /\
  alertFor s v now suf store = None /\
  snd (iteration s v now suf store) = store.
Proof.
  intros H. split; [|split].
  - revert H. unfold Sensor.getAlertStatus.
    destruct (JS.ge v (Sensor.critical _)); [discriminate|].
    destruct (JS.ge v (Sensor.warning _)); [discriminate | reflexivity].
  - unfold alertFor. rewrite H. reflexivity.
  - unfold iteration. rewrite alertFor_addReading.
    unfold alertFor. rewrite H. reflexivity.
Qed.

Lemma C8_normal_creates_nothing_witness :
  JS.ge 2.5 (Sensor.warning (Sensor.thresholds Samples.seismic001)) = false /\
  alertFor Samples.seismic001 2.5 (Samples.t0 + 1000) "q7w8e9r0t" [Samples.firstAlert] = None /\
  snd (iteration Samples.seismic001 2.5 (Samples.t0 + 1000) "q7w8e9r0t" [Samples.firstAlert])
  = [Samples.firstAlert].
Proof.
  apply (C8_normal_creates_nothing Samples.seismic001 2.5). reflexivity.
Defined.

Lemma calculateImpact_alert s v now suf store a :
  alertFor s v now suf store = Some a ->
  Alert.estimatedImpact a = calculateImpact (Sensor.type s) (Alert.severity a).
Proof.
  intros H. apply alertFor_Some in H as (Hn & _ & ->).
  cbn [newAlert Alert.estimatedImpact Alert.severity].
  rewrite (severityOf_status s v Hn). reflexivity.
Qed.

(** C7: the impact table, its default of 1000 for every other sensor
    type, the impact carried by a created alert, and the seismic example:
    thresholds 3.0 and 4.0, reading 4.0, nothing recent in the store. *)
Theorem C7_estimated_impact :
  (calculateImpact "seismic" "critical" = 10000 /\
   calculateImpact "seismic" "warning" = 5000 /\
   calculateImpact "water_level" "critical" = 8000 /\
   calculateImpact "water_level" "warning" = 4000 /\
   calculateImpact "wind_speed" "critical" = 6000 /\
   calculateImpact "wind_speed" "warning" = 3000 /\
   calculateImpact "temperature" "critical" = 12000 /\
   calculateImpact "temperature" "warning" = 6000 /\
   calculateImpact "air_quality" "critical" = 15000 /\
   calculateImpact "air_quality" "warning" = 8000) /\
  (forall ty sev,
      ty <> "seismic" -> ty <> "water_level" -> ty <> "wind_speed" ->
      ty <> "temperature" -> ty <> "air_quality" ->
      calculateImpact ty sev = 1000) /\
  (forall s v now suf store a,
      alertFor s v now suf store = Some a ->
      Alert.estimatedImpact a = calculateImpact (Sensor.type s) (Alert.severity a)) /\
  (forall s now suf store,
      Sensor.type s = "seismic" ->
      Sensor.thresholds s = {| Sensor.warning := 3; Sensor.critical := 4 |} ->
      Sensor.getAlertStatus s 4 = "critical" /\
      (Alert.findOne (recentQuery s "critical" now) store = None ->
       exists a,
         alertFor s 4 now suf store = Some a /\
         Alert.type a = "earthquake" /\
         Alert.severity a = "critical" /\
         Alert.estimatedImpact a = 10000)).
Proof.
  split; [repeat split; vm_compute; reflexivity|].
  split; [|split].
  - intros ty sev H1 H2 H3 H4 H5. unfold calculateImpact, baseImpact.
    rewrite !lookup_insert_ne, lookup_empty by congruence. reflexivity.
  - exact calculateImpact_alert.
  - intros s now suf store Hty Hth.
    assert (Hst : Sensor.getAlertStatus s 4 = "critical")
      by (unfold Sensor.getAlertStatus; rewrite Hth; reflexivity).
    split; [exact Hst|]. intros Hf.
    eexists. split.
    + apply alertFor_fresh; rewrite Hst; [discriminate | exact Hf].
    + unfold newAlert. cbn. rewrite Hst, Hty. repeat split; reflexivity.
Qed.

Lemma C7_estimated_impact_witness :
  calculateImpact "humidity" "critical" = 1000 /\
  Alert.estimatedImpact Samples.firstAlert
  = calculateImpact "seismic" (Alert.severity Samples.firstAlert) /\
  Sensor.getAlertStatus Samples.seismic001 4 = "critical" /\
  exists a,
    alertFor Samples.seismic001 4 Samples.t0 "k3j9x0a1b" [] = Some a /\
    Alert.type a = "earthquake" /\
    Alert.severity a = "critical" /\
    Alert.estimatedImpact a = 10000.
Proof.
  destruct C7_estimated_impact as (_ & P2 & P3 & P4).
  split; [apply P2; discriminate|].
  split; [apply (P3 Samples.seismic001 4%float Samples.t0 "k3j9x0a1b" []); reflexivity|].
  destruct (P4 Samples.seismic001 Samples.t0 "k3j9x0a1b" [] eq_refl eq_refl) as (Q1 & Q2).
  split; [exact Q1 | apply Q2; reflexivity].
Defined.

(** C6 (as amended): one template per sensor type, seven of them:
    seismic, water level, wind speed, temperature and air quality as the
    specification lists them, and two more for humidity and pressure;
    every other sensor type gets the default.  The value is printed by
    [toFixed], with one decimal, none for air quality. *)
Theorem C6_message_templates (v : float) (u : string) :
  generateAlertMessage "seismic" v u
  = "Seismic activity detected: " ++ JS.toFixed v 1 ++ " magnitude" /\
  generateAlertMessage "water_level" v u
  = "Rising water levels detected: " ++ JS.toFixed v 1 ++ u /\
  generateAlertMessage "wind_speed" v u
  = "High wind speeds detected: " ++ JS.toFixed v 1 ++ " " ++ u /\
  generateAlertMessage "temperature" v u
  = "Extreme temperature detected: " ++ JS.toFixed v 1 ++ u /\
  generateAlertMessage "air_quality" v u
  = "Poor air quality detected: AQI " ++ JS.toFixed v 0 /\
  generateAlertMessage "humidity" v u
  = "Unusual humidity levels: " ++ JS.toFixed v 1 ++ u /\
  generateAlertMessage "pressure" v u
  = "Atmospheric pressure anomaly: " ++ JS.toFixed v 1 ++ " " ++ u /\
  (forall ty,
      ty <> "seismic" -> ty <> "water_level" -> ty <> "wind_speed" ->
      ty <> "temperature" -> ty <> "air_quality" ->
      ty <> "humidity" -> ty <> "pressure" ->
      generateAlertMessage ty v u
      = "Sensor anomaly detected: " ++ JS.toFixed v 1 ++ " " ++ u).
Proof.
  unfold generateAlertMessage, messages.
  repeat match goal with
         | |- _ /\ _ => split
         end;
    try (repeat (rewrite lookup_insert_ne by discriminate);
         rewrite lookup_insert_eq; reflexivity).
  intros ty H1 H2 H3 H4 H5 H6 H7.
  rewrite !lookup_insert_ne, lookup_empty by congruence. reflexivity.
Qed.

Lemma C6_message_templates_witness :
  generateAlertMessage "weather" 85 "%" = "Sensor anomaly detected: 85.0 %".
Proof.
  destruct (C6_message_templates 85 "%") as (_ & _ & _ & _ & _ & _ & _ & H).
  rewrite H by discriminate. vm_compute. reflexivity.
Defined.

(** C6 (as stated) fails: humidity and pressure sensors do not get the
    default message. *)
Lemma C6_humidity_pressure_counterexample :
  generateAlertMessage "humidity" 85 "%" = "Unusual humidity levels: 85.0%" /\
  generateAlertMessage "humidity" 85 "%" <> "Sensor anomaly detected: 85.0 %" /\
  generateAlertMessage "pressure" 1051.26 "hPa" = "Atmospheric pressure anomaly: 1051.3 hPa" /\
  generateAlertMessage "pressure" 1051.26 "hPa" <> "Sensor anomaly detected: 1051.3 hPa".
Proof.
  repeat split; try (vm_compute; reflexivity); vm_compute; discriminate.
Qed.

End AlertPipeline.

(** * Order of binary64 values *)

Section FloatOrder.

Lemma SFleb_trans x y z :
  SFleb x y = true -> SFleb y z = true -> SFleb x z = true.
Proof.
  unfold SFleb.
  destruct x as [sx | sx | | sx mx ex], y as [sy | sy | | sy my ey],
           z as [sz | sz | | sz mz ez]; simpl;
    try destruct sx; try destruct sy; try destruct sz; simpl;
    try reflexivity; try discriminate; try (intros; assumption);
    change (Pos.compare_cont Eq) with Pos.compare;
    destruct (Z.compare_spec ex ey), (Z.compare_spec ey ez), (Z.compare_spec ex ez);
    simpl; try reflexivity; try discriminate; try lia;
    destruct (Pos.compare_spec mx my), (Pos.compare_spec my mz), (Pos.compare_spec mx mz);
    simpl; try reflexivity; try discriminate; try lia.
Qed.

(** [<=] on Numbers is transitive. *)
Lemma float_leb_trans x y z :
  PrimFloat.leb x y = true -> PrimFloat.leb y z = true -> PrimFloat.leb x z = true.
Proof. rewrite !FloatAxioms.leb_spec. apply SFleb_trans. Qed.

(** No Number is at most, or at least, [NaN]. *)
Lemma float_leb_nan_r x y : PrimFloat.is_nan y = true -> PrimFloat.leb x y = false.
Proof.
  intros H. rewrite FloatAxioms.leb_spec. unfold Prim2SF at 2. rewrite H.
  unfold SFleb. destruct (Prim2SF x); reflexivity.
Qed.

Lemma float_leb_nan_l x y : PrimFloat.is_nan x = true -> PrimFloat.leb x y = false.
Proof.
  intros H. rewrite FloatAxioms.leb_spec. unfold Prim2SF at 1. rewrite H.
  reflexivity.
Qed.

End FloatOrder.

(** * More on the sensor model *)

Section SensorModelMore.
Import Sensor Models.

Lemma last_slice_last {A} (n : nat) (l : list A) (x : A) :
  last (slice_last (S n) (l ++ [x])) = Some x.
Proof.
  unfold slice_last. rewrite length_app. cbn [length].
  rewrite drop_app_le by lia. apply last_snoc.
Qed.

(** Trimming before appending loses nothing that trimming after keeps. *)
Lemma slice_last_snoc {A} (n : nat) (l : list A) (x : A) :
  slice_last (S n) (slice_last (S n) l ++ [x]) = slice_last (S n) (l ++ [x]).
Proof.
  unfold slice_last. rewrite !length_app, length_drop. cbn [length].
  rewrite !drop_app_le by (rewrite ?length_drop; lia).
  rewrite drop_drop. f_equal. f_equal. lia.
Qed.

Lemma addReading_readings_of s r :
  readings (addReading s r.1.1 r.1.2 r.2) = slice_last 1000 (readings s ++ [readingOf r]).
Proof. apply addReading_readings. Qed.

Lemma addReadings_snoc s rs r :
  addReadings s (rs ++ [r]) = addReading (addReadings s rs) r.1.1 r.1.2 r.2.
Proof. unfold addReadings. rewrite fold_left_app. reflexivity. Qed.

(** X1: after [addReading] the [latestReading] virtual is the reading just
    built, and [currentReading] carries the same value and time together
    with the classification of that value. *)
Theorem addReading_latest_is_current (s : t) (v : float) (q : string) (now : Z) :
  let s' := addReading s v q now in
  latestReading s' = Some {| value := v; quality := q; timestamp := now |} /\
  currentReading s' =
    Some {| cr_value := v; cr_timestamp := now; cr_status := getAlertStatus s' v |}.
Proof.
  intros s'. subst s'. unfold latestReading. rewrite addReading_readings.
  rewrite (last_slice_last 999). split; reflexivity.
Qed.

(** X2: a run of [addReading] calls leaves the last 1000 entries of the old
    buffer followed by the new readings, in arrival order. *)
Theorem addReadings_buffer (s : t) (rs : list (float * string * Z)) :
  rs <> [] ->
  readings (addReadings s rs) = slice_last 1000 (readings s ++ map readingOf rs) /\
  length (readings (addReadings s rs)) = Nat.min 1000 (length (readings s) + length rs).
Proof.
  intros Hne.
  assert (H : readings (addReadings s rs) = slice_last 1000 (readings s ++ map readingOf rs)).
  { induction rs as [|r rs IH] using rev_ind; [contradiction|].
    rewrite addReadings_snoc, addReading_readings_of, map_app, app_assoc.
    destruct rs as [|r0 rs0].
    - cbn [addReadings fold_left map]. rewrite app_nil_r. reflexivity.
    - rewrite IH by discriminate. apply (slice_last_snoc 999). }
  split; [exact H|].
  rewrite H, slice_last_length, length_app, length_map. reflexivity.
Qed.

Lemma addReadings_buffer_witness :
  readings (addReadings Samples.seismic001 [(4%float, "good", Samples.t0);
                                            (2.5%float, "fair", Samples.t0 + 1000)])
  = slice_last 1000
      (readings Samples.seismic001 ++
       map readingOf [(4%float, "good", Samples.t0); (2.5%float, "fair", Samples.t0 + 1000)]).
Proof.
  apply (addReadings_buffer Samples.seismic001). discriminate.
Defined.

Lemma getAlertStatus_nan s x :
  PrimFloat.is_nan x = true -> getAlertStatus s x = "normal".
Proof.
  intros Hx. unfold getAlertStatus, JS.ge.
  rewrite !(float_leb_nan_r _ x) by exact Hx. reflexivity.
Qed.

(** X3: a larger value never gets a milder status, whatever the two
    thresholds are; a value that is [NaN] is normal. *)
Theorem getAlertStatus_monotone (s : t) (v1 v2 : float) :
  (PrimFloat.leb v1 v2 = true ->
   (indexOf (getAlertStatus s v1) statuses <= indexOf (getAlertStatus s v2) statuses)%nat) /\
  (PrimFloat.is_nan v1 = true -> getAlertStatus s v1 = "normal").
Proof.
  split; [|apply getAlertStatus_nan].
  intros H. unfold getAlertStatus, JS.ge.
  pose proof (fun t Ht => float_leb_trans t v1 v2 Ht H) as Htr.
  destruct (PrimFloat.leb (critical (thresholds s)) v1) eqn:C1;
    [rewrite (Htr _ C1); reflexivity|].
  destruct (PrimFloat.leb (warning (thresholds s)) v1) eqn:W1.
  - rewrite (Htr _ W1). destruct (PrimFloat.leb (critical (thresholds s)) v2); cbn; lia.
  - destruct (PrimFloat.leb (critical (thresholds s)) v2),
             (PrimFloat.leb (warning (thresholds s)) v2); cbn; lia.
Qed.

Lemma getAlertStatus_monotone_witness :
  (indexOf (getAlertStatus Samples.seismic001 3.5) statuses
   <= indexOf (getAlertStatus Samples.seismic001 4.5) statuses)%nat /\
  getAlertStatus Samples.seismic001 PrimFloat.nan = "normal".
Proof.
  destruct (getAlertStatus_monotone Samples.seismic001 3.5 4.5) as [H1 _].
  destruct (getAlertStatus_monotone Samples.seismic001 PrimFloat.nan 0) as [_ H2].
  split; [apply H1; reflexivity | apply H2; reflexivity].
Defined.

Lemma saveSensor_In s s' db :
  In s db -> sensorId s = sensorId s' -> In s' (saveSensor s' db).
Proof.
  intros Hin Hid. induction db as [|x db IH]; [contradiction|].
  cbn [saveSensor]. destruct (String.eqb_spec (sensorId x) (sensorId s')) as [E | E].
  - left. reflexivity.
  - right. apply IH. destruct Hin as [-> | Hin]; [contradiction | exact Hin].
Qed.

Lemma findSensor_Some id db s :
  findSensor id db = Some s -> In s db /\ sensorId s = id.
Proof.
  intros H. apply find_some in H as [Hin He].
  apply String.eqb_eq in He. auto.
Qed.

Lemma status_critical_eqb s v :
  String.eqb (getAlertStatus s v) "critical" = JS.ge v (critical (thresholds s)).
Proof.
  unfold getAlertStatus. destruct (JS.ge v (critical _)); [reflexivity|].
  destruct (JS.ge v (warning _)); reflexivity.
Qed.

(** X4: once a reading is recorded and the sensor saved, [findCritical]
    returns the sensor exactly when it is active and the value is at or
    above its critical threshold. *)
Theorem findCritical_after_reading (db : list t) (id : string) (s : t)
    (v : float) (q : string) (now : Z) :
  findSensor id db = Some s ->
  let s' := addReading s v q now in
  In s' (findCritical (saveSensor s' db)) <->
  isActive s = true /\ JS.ge v (critical (thresholds s)) = true.
Proof.
  intros Hf s'. apply findSensor_Some in Hf as [Hin Hid].
  unfold findCritical. rewrite filter_In.
  assert (Hin' : In s' (saveSensor s' db)) by (apply (saveSensor_In s); auto).
  subst s'. cbn [currentReading cr_status addReading] in *.
  change (isActive (addReading s v q now)) with (isActive s).
  rewrite status_critical_eqb, andb_true_iff. tauto.
Qed.

Lemma findCritical_after_reading_witness :
  In (addReading Samples.seismic001 4.5 "good" Samples.t0)
     (findCritical (saveSensor (addReading Samples.seismic001 4.5 "good" Samples.t0)
                               SensorSeed.defaultSensors)) <->
  isActive Samples.seismic001 = true /\
  JS.ge 4.5 (critical (thresholds Samples.seismic001)) = true.
Proof.
  apply (findCritical_after_reading SensorSeed.defaultSensors "seismic-001").
  reflexivity.
Defined.

End SensorModelMore.

(** * More on the alert pipeline *)

Section PipelineMore.
Import SensorService Models Debounce.

Lemma getAlertType_cases ty :
  In (getAlertType ty) ["earthquake"; "flood"; "storm"; "heatwave"; "pollution"; "other"].
Proof.
  unfold getAlertType, alertTypeMapping.
  destruct (decide (ty = "seismic")) as [-> | H1]; [cbn; tauto|].
  destruct (decide (ty = "water_level")) as [-> | H2]; [cbn; tauto|].
  destruct (decide (ty = "wind_speed")) as [-> | H3]; [cbn; tauto|].
  destruct (decide (ty = "temperature")) as [-> | H4]; [cbn; tauto|].
  destruct (decide (ty = "air_quality")) as [-> | H5]; [cbn; tauto|].
  rewrite !lookup_insert_ne, lookup_empty by congruence. cbn. tauto.
Qed.

Lemma calculateImpact_bounds ty st :
  st = "critical" \/ st = "warning" ->
  1000 <= calculateImpact ty st <= 15000.
Proof.
  intros Hst. unfold calculateImpact, baseImpact.
  destruct (decide (ty = "seismic")) as [-> | H1];
    [destruct Hst as [-> | ->]; vm_compute; split; discriminate|].
  destruct (decide (ty = "water_level")) as [-> | H2];
    [destruct Hst as [-> | ->]; vm_compute; split; discriminate|].
  destruct (decide (ty = "wind_speed")) as [-> | H3];
    [destruct Hst as [-> | ->]; vm_compute; split; discriminate|].
  destruct (decide (ty = "temperature")) as [-> | H4];
    [destruct Hst as [-> | ->]; vm_compute; split; discriminate|].
  destruct (decide (ty = "air_quality")) as [-> | H5];
    [destruct Hst as [-> | ->]; vm_compute; split; discriminate|].
  rewrite !lookup_insert_ne, lookup_empty by congruence. cbn. lia.
Qed.

(** X5: every alert the pipeline creates passes the enums of the alert
    schema; its type is never fire, its severity is the status of the
    reading (critical or warning, never moderate or info), it is neither
    acknowledged nor resolved, it carries the reading and the sensor id,
    and its estimated impact lies between 1000 and 15000. *)
Theorem created_alert_wellformed (s : Sensor.t) (v : float) (now : Z) (suf : string)
    (store : list Alert.t) (a : Alert.t) :
  alertFor s v now suf store = Some a ->
  enumsValid a = true /\
  Alert.type a <> "fire" /\
  Alert.severity a = Sensor.getAlertStatus s v /\
  (Alert.severity a = "critical" \/ Alert.severity a = "warning") /\
  Alert.acknowledged a = false /\ Alert.resolved a = false /\
  Alert.sensorData a =
    Some {| Alert.value := v; Alert.unit := Sensor.unit s;
            Alert.sensorId := Sensor.sensorId s |} /\
  1000 <= Alert.estimatedImpact a <= 15000.
Proof.
  intros H. apply alertFor_Some in H as (Hn & _ & ->).
  pose proof (severityOf_status s v Hn) as Hsev.
  assert (Hst : Sensor.getAlertStatus s v = "critical" \/
                Sensor.getAlertStatus s v = "warning").
  { destruct (getAlertStatus_cases s v) as [E | [E | E]]; auto. contradiction. }
  pose proof (getAlertType_cases (Sensor.type s)) as Hty.
  unfold enumsValid, newAlert.
  cbn [Alert.type Alert.severity Alert.acknowledged Alert.resolved Alert.sensorData
       Alert.estimatedImpact].
  rewrite Hsev. repeat split; auto.
  - cbn in Hty.
    destruct Hty as [<- | [<- | [<- | [<- | [<- | [<- | []]]]]]];
      destruct Hst as [-> | ->]; reflexivity.
  - cbn in Hty. intros E. rewrite E in Hty.
    destruct Hty as [? | [? | [? | [? | [? | [? | []]]]]]]; discriminate.
  - apply calculateImpact_bounds, Hst.
  - apply calculateImpact_bounds, Hst.
Qed.

Lemma created_alert_wellformed_witness :
  enumsValid Samples.firstAlert = true /\
  Alert.type Samples.firstAlert <> "fire" /\
  Alert.severity Samples.firstAlert = Sensor.getAlertStatus Samples.seismic001 4 /\
  (Alert.severity Samples.firstAlert = "critical" \/
   Alert.severity Samples.firstAlert = "warning") /\
  Alert.acknowledged Samples.firstAlert = false /\
  Alert.resolved Samples.firstAlert = false /\
  Alert.sensorData Samples.firstAlert =
    Some {| Alert.value := 4; Alert.unit := "magnitude"; Alert.sensorId := "seismic-001" |} /\
  1000 <= Alert.estimatedImpact Samples.firstAlert <= 15000.
Proof.
  apply (created_alert_wellformed Samples.seismic001 4 Samples.t0 "k3j9x0a1b" []).
  reflexivity.
Defined.

Lemma ForallOrdPairs_snoc {A} (R : A -> A -> Prop) l x :
  ForallOrdPairs R l -> Forall (fun a => R a x) l -> ForallOrdPairs R (l ++ [x]).
Proof.
  induction 1 as [|a l Ha Hl IH]; intros Hx; cbn.
  - constructor; constructor.
  - inversion Hx as [|? ? Hax Hlx]; subst. constructor.
    + apply Forall_app. split; [exact Ha | constructor; [exact Hax | constructor]].
    + apply IH, Hlx.
Qed.

(** An unresolved stored alert of the key of a new alert answers the
    recent-alert query exactly when it is recent enough. *)
Lemma sameKey_matches s v now suf b t :
  sameKey b (newAlert s v (Sensor.getAlertStatus s v) t suf) = true ->
  Alert.resolved b = false ->
  Alert.matches (recentQuery s (Sensor.getAlertStatus s v) now) b
  = (now - 5 * 60 * 1000 <=? Alert.createdAt b)%Z.
Proof.
  unfold sameKey, Alert.matches, recentQuery, newAlert. cbn.
  destruct (Alert.sensorData b) as [d|]; [|discriminate].
  rewrite !andb_true_iff. intros [[-> ->] ->] ->. reflexivity.
Qed.

(** Saving a new alert at the instant it was built adds it as it is. *)
Lemma save_newAlert s v st now suf store :
  Alert.save now (newAlert s v st now suf) store
  = (store ++ [newAlert s v st now suf])%list.
Proof. reflexivity. Qed.

Lemma iteration_debounced s v now suf store :
  debounced store -> debounced (snd (iteration s v now suf store)).
Proof.
  intros Hd. unfold iteration. rewrite alertFor_addReading.
  destruct (alertFor s v now suf store) as [a|] eqn:Ha; [|exact Hd].
  cbn [snd]. apply alertFor_Some in Ha as (_ & Hf & ->).
  rewrite save_newAlert. apply ForallOrdPairs_snoc; [exact Hd|].
  apply List.Forall_forall. intros b Hb Hk Hrb _.
  rewrite findOne_None in Hf. specialize (Hf b Hb).
  rewrite (sameKey_matches s v now suf b now) in Hf by assumption.
  apply Z.leb_gt in Hf.
  change (Alert.createdAt (newAlert s v (Sensor.getAlertStatus s v) now suf)) with now.
  lia.
Qed.

Lemma simulate_fold_debounced (draw : Sensor.t -> Draw) l acc :
  debounced (snd acc) ->
  debounced
    (snd (fold_left
            (fun acc sensor =>
               let d := draw sensor in
               let '(sensor', store') :=
                 iteration sensor (d_value d) (d_now d) (d_suffix d) (snd acc) in
               (fst acc ++ [sensor'], store')%list) l acc)).
Proof.
  revert acc. induction l as [|s l IH]; intros acc Hd; [exact Hd|].
  cbn [fold_left]. apply IH.
  pose proof (iteration_debounced s (d_value (draw s)) (d_now (draw s))
                (d_suffix (draw s)) (snd acc) Hd) as H.
  destruct (iteration s _ _ _ (snd acc)) as [s' st']. exact H.
Qed.

(** X6: if any two unresolved stored alerts of the same sensor, type and
    severity lie more than five minutes apart, they still do after an
    iteration of the simulation, and after a whole run over the sensors,
    whatever values and clock readings are drawn. *)
Theorem simulation_keeps_debounced (draw : Sensor.t -> Draw) (sensors : list Sensor.t)
    (s : Sensor.t) (v : float) (now : Z) (suf : string) (store : list Alert.t) :
  debounced store ->
  debounced (snd (iteration s v now suf store)) /\
  debounced (snd (simulateSensorData draw sensors store)).
Proof.
  intros Hd. split; [apply iteration_debounced, Hd|].
  unfold simulateSensorData. apply simulate_fold_debounced. exact Hd.
Qed.

Lemma simulation_keeps_debounced_witness :
  debounced (snd (iteration Samples.seismic001 4.5 (Samples.t0 + 1000) "q7w8e9r0t"
                            [Samples.firstAlert])) /\
  debounced (snd (simulateSensorData
                    (fun _ => {| d_value := 4.5; d_suffix := "q7w8e9r0t";
                                 d_now := Samples.t0 + 1000 |})
                    SensorSeed.defaultSensors [Samples.firstAlert])).
Proof.
  apply simulation_keeps_debounced. repeat constructor.
Defined.

Lemma iteration_effect s v now suf store :
  exists added,
    iteration s v now suf store
    = (Sensor.addReading s v "good" now, (store ++ added)%list) /\
    (length added <= 1)%nat.
Proof.
  unfold iteration. destruct (alertFor _ v now suf store) as [a|].
  - eexists [_]. split; [reflexivity | cbn; lia].
  - exists []. rewrite app_nil_r. split; [reflexivity | cbn; lia].
Qed.

Lemma simulate_fold_effect (draw : Sensor.t -> Draw) l acc :
  exists added,
    fold_left
      (fun acc sensor =>
         let d := draw sensor in
         let '(sensor', store') :=
           iteration sensor (d_value d) (d_now d) (d_suffix d) (snd acc) in
         (fst acc ++ [sensor'], store')%list) l acc
    = ((fst acc ++
        map (fun s => Sensor.addReading s (d_value (draw s)) "good" (d_now (draw s))) l)%list,
       (snd acc ++ added)%list) /\
    (length added <= length l)%nat.
Proof.
  revert acc. induction l as [|s l IH]; intros [ss st].
  - exists []. cbn. rewrite !app_nil_r. split; [reflexivity | lia].
  - cbn [fold_left fst snd].
    destruct (iteration_effect s (d_value (draw s)) (d_now (draw s))
                (d_suffix (draw s)) st) as (a1 & E & H1).
    cbv zeta. rewrite E. cbv iota beta.
    destruct (IH ((ss ++ [Sensor.addReading s (d_value (draw s)) "good" (d_now (draw s))])%list,
                  (st ++ a1)%list)) as (a2 & E2 & H2).
    cbv zeta in E2. rewrite E2.
    exists (a1 ++ a2)%list. cbn [fst snd map].
    rewrite <- !app_assoc, length_app. split; [reflexivity | cbn; lia].
Qed.

(** X7: a run of the simulation whose drawn values are Numbers that a
    save accepts (none is [NaN]) records one reading on every active sensor
    and on no other, returns these sensors in order, keeps every stored
    alert as it is and in place, and adds at most one alert per active
    sensor. *)
Theorem simulateSensorData_effect (draw : Sensor.t -> Draw) (sensors : list Sensor.t)
    (store : list Alert.t) :
  let active := List.filter isActive sensors in
  Forall (fun s => PrimFloat.is_nan (d_value (draw s)) = false) active ->
  fst (simulateSensorData draw sensors store)
  = map (fun s => Sensor.addReading s (d_value (draw s)) "good" (d_now (draw s))) active /\
  exists added,
    snd (simulateSensorData draw sensors store) = (store ++ added)%list /\
    (length added <= length active)%nat.
Proof.
  intros active _. subst active. unfold simulateSensorData.
  destruct (simulate_fold_effect draw (List.filter isActive sensors) ([], store))
    as (added & H & Hlen).
  fold isActive. cbv zeta in H |- *. rewrite H. cbn [fst snd app].
  split; [reflexivity|].
  exists added. split; [reflexivity | exact Hlen].
Qed.

Lemma simulateSensorData_effect_witness :
  fst (simulateSensorData
         (fun _ => {| d_value := 4.5; d_suffix := "q7w8e9r0t"; d_now := Samples.t0 + 1000 |})
         SensorSeed.defaultSensors [Samples.firstAlert])
  = map (fun s => Sensor.addReading s 4.5 "good" (Samples.t0 + 1000))
        (List.filter isActive SensorSeed.defaultSensors) /\
  exists added,
    snd (simulateSensorData
           (fun _ => {| d_value := 4.5; d_suffix := "q7w8e9r0t";
                        d_now := Samples.t0 + 1000 |})
           SensorSeed.defaultSensors [Samples.firstAlert])
    = ([Samples.firstAlert] ++ added)%list /\
    (length added <= length (List.filter isActive SensorSeed.defaultSensors))%nat.
Proof.
  apply (simulateSensorData_effect
           (fun _ => {| d_value := 4.5; d_suffix := "q7w8e9r0t";
                        d_now := Samples.t0 + 1000 |})
           SensorSeed.defaultSensors [Samples.firstAlert]).
  repeat constructor.
Defined.

Lemma seed_fold (l db : list Sensor.t) :
  fold_left (fun acc s => (acc ++ [s])%list) l db = (db ++ l)%list.
Proof.
  revert db. induction l as [|s l IH]; intros db; cbn [fold_left].
  - rewrite app_nil_r. reflexivity.
  - rewrite IH, <- app_assoc. reflexivity.
Qed.

(** X8: [initializeSensors] leaves a collection that holds a sensor as it
    is, turns the empty collection into the five defaults, whose ids are
    pairwise distinct as the unique index requires, and running it again
    changes nothing. *)
Theorem initializeSensors_idempotent (db : list Sensor.t) :
  SensorSeed.initializeSensors (SensorSeed.initializeSensors db)
  = SensorSeed.initializeSensors db /\
  (db <> [] -> SensorSeed.initializeSensors db = db) /\
  SensorSeed.initializeSensors [] = SensorSeed.defaultSensors /\
  NoDup (map Sensor.sensorId (SensorSeed.initializeSensors [])).
Proof.
  assert (Hne : forall d, d <> [] -> SensorSeed.initializeSensors d = d).
  { intros [|x d] H; [contradiction | reflexivity]. }
  repeat split.
  - destruct db as [|x db]; [|reflexivity].
    apply Hne. vm_compute. discriminate.
  - apply Hne.
  - apply (bool_decide_unpack _). vm_compute. exact I.
Qed.

Lemma initializeSensors_idempotent_witness :
  SensorSeed.initializeSensors [Samples.flatThresholds] = [Samples.flatThresholds].
Proof.
  apply (initializeSensors_idempotent [Samples.flatThresholds]). discriminate.
Defined.

End PipelineMore.

(** * More on the priority score *)

Section PriorityMore.
Import ReportDocument DisasterReport PriorityCases.

Lemma multiplier_values :
  JS.get_or severityMultiplier "low" 1 = 0.5%float /\
  JS.get_or severityMultiplier "medium" 1 = 1%float /\
  JS.get_or severityMultiplier "high" 1 = 1.5%float /\
  JS.get_or severityMultiplier "critical" 1 = 2%float.
Proof. repeat split; vm_compute; reflexivity. Qed.

Lemma multiplier_unknown sev :
  sev <> "low" -> sev <> "medium" -> sev <> "high" -> sev <> "critical" ->
  JS.get_or severityMultiplier sev 1 = 1%float.
Proof.
  intros H1 H2 H3 H4. unfold JS.get_or, severityMultiplier.
  rewrite !lookup_insert_ne, lookup_empty by congruence. reflexivity.
Qed.

Lemma score_withSeverity r sev now :
  calculatePriority (withSeverity r sev) now =
  scoreOf (JS.get_or severityMultiplier sev 1)
          (includes highPriorityTypes (type r))
          (Qgtb (hoursOld r now) 24) (Qgtb (hoursOld r now) 48)
          (JS.gt_undef (estimatedOf r) 10).
Proof. rewrite calculatePriority_scoreOf. reflexivity. Qed.

(** X9: a report of critical severity scores 10, whatever its type, its
    age and the number of people affected: among critical reports the
    score does not tell old from new. *)
Theorem critical_scores_ten (r : DisasterReport.t) (now : Z) :
  severity r = "critical" -> calculatePriority r now = 10%float.
Proof.
  intros H. rewrite calculatePriority_scoreOf, H.
  destruct multiplier_values as (_ & _ & _ & ->).
  destruct (includes _ _), (Qgtb _ 24), (Qgtb _ 48), (JS.gt_undef _ _);
    vm_compute; reflexivity.
Qed.

Lemma critical_scores_ten_witness :
  calculatePriority (withSeverity Samples.lowFlood "critical") (Samples.hours 3) = 10%float.
Proof.
  apply (critical_scores_ten (withSeverity Samples.lowFlood "critical")). reflexivity.
Defined.

(** X10: all else equal, the score never decreases from low to medium to
    high to critical severity. *)
Theorem priority_monotone_in_severity (r : DisasterReport.t) (now : Z) :
  PrimFloat.leb (calculatePriority (withSeverity r "low") now)
                (calculatePriority (withSeverity r "medium") now) = true /\
  PrimFloat.leb (calculatePriority (withSeverity r "medium") now)
                (calculatePriority (withSeverity r "high") now) = true /\
  PrimFloat.leb (calculatePriority (withSeverity r "high") now)
                (calculatePriority (withSeverity r "critical") now) = true.
Proof.
  rewrite !score_withSeverity.
  destruct multiplier_values as (-> & -> & -> & ->).
  destruct (includes _ _), (Qgtb _ 24), (Qgtb _ 48), (JS.gt_undef _ _);
    repeat split; vm_compute; reflexivity.
Qed.

(** In the arithmetic of the score a severity that the table does not
    list counts as 1, as medium does. *)
Lemma formula_unknown_severity (r : DisasterReport.t) (sev : string) (now : Z) :
  sev <> "low" -> sev <> "medium" -> sev <> "high" -> sev <> "critical" ->
  calculatePriority (withSeverity r sev) now
  = calculatePriority (withSeverity r "medium") now.
Proof.
  intros H1 H2 H3 H4. rewrite !score_withSeverity.
  rewrite (multiplier_unknown sev) by assumption.
  destruct multiplier_values as (_ & -> & _). reflexivity.
Qed.

Lemma severities_not_inherited sev :
  In sev severities -> ~ In sev objectPrototypeNames.
Proof.
  unfold severities. cbn [In].
  intros [<- | [<- | [<- | [<- | []]]]]; vm_compute; intuition discriminate.
Qed.

(** X11: called on a document whose severity is neither one of the four
    of the table nor a name inherited from [Object.prototype],
    [calculatePriority] returns what it returns for medium; called with an
    inherited name (constructor, toString, ...), it leaves the document as
    it is and returns the priority the document held. *)
Theorem unknown_severity_behaviour (d : ReportDocument.t) (sev : string) (now : Z) :
  (~ In sev severities -> ~ In sev objectPrototypeNames ->
   snd (ReportDocument.calculatePriority (docWithSeverity d sev) now)
   = snd (ReportDocument.calculatePriority (docWithSeverity d "medium") now)) /\
  (In sev objectPrototypeNames ->
   ReportDocument.calculatePriority (docWithSeverity d sev) now
   = (docWithSeverity d sev, priority d)).
Proof.
  split.
  - intros Hs Hp.
    rewrite (method_formula (docWithSeverity d sev) now) by exact Hp.
    rewrite (method_formula (docWithSeverity d "medium") now)
      by (apply severities_not_inherited; cbn; tauto).
    cbn [snd].
    change (report (docWithSeverity d sev)) with (withSeverity (report d) sev).
    change (report (docWithSeverity d "medium")) with (withSeverity (report d) "medium").
    apply formula_unknown_severity; intros ->; apply Hs; cbn; tauto.
  - intros Hp. apply (method_inherited (docWithSeverity d sev) now). exact Hp.
Qed.

Lemma unknown_severity_behaviour_witness :
  snd (ReportDocument.calculatePriority
         (docWithSeverity {| reportId := None; priority := 5;
                             report := withType Samples.lowFlood "fire" |} "severe")
         (Samples.hours 3))
  = snd (ReportDocument.calculatePriority
           (docWithSeverity {| reportId := None; priority := 5;
                               report := withType Samples.lowFlood "fire" |} "medium")
           (Samples.hours 3)) /\
  ReportDocument.calculatePriority
    (docWithSeverity {| reportId := None; priority := 5;
                        report := withType Samples.lowFlood "fire" |} "constructor")
    (Samples.hours 3)
  = (docWithSeverity {| reportId := None; priority := 5;
                        report := withType Samples.lowFlood "fire" |} "constructor",
     5%float).
Proof.
  destruct (unknown_severity_behaviour
              {| reportId := None; priority := 5;
                 report := withType Samples.lowFlood "fire" |} "severe" (Samples.hours 3))
    as [H1 _].
  destruct (unknown_severity_behaviour
              {| reportId := None; priority := 5;
                 report := withType Samples.lowFlood "fire" |} "constructor"
              (Samples.hours 3)) as [_ H2].
  split.
  - apply H1; vm_compute; intuition discriminate.
  - apply H2. vm_compute. tauto.
Defined.

(** X12: all else equal, a high-priority type never scores below another
    type, and an estimate of more than ten people affected never scores
    below another estimate or none. *)
Theorem priority_factors_never_lower (r : DisasterReport.t) (now : Z) :
  (forall ty ty',
      includes highPriorityTypes ty' = true ->
      PrimFloat.leb (calculatePriority (withType r ty) now)
                    (calculatePriority (withType r ty') now) = true) /\
  (forall e e',
      JS.gt_undef e' 10 = true ->
      PrimFloat.leb (calculatePriority (withEstimate r e) now)
                    (calculatePriority (withEstimate r e') now) = true).
Proof.
  split.
  - intros ty ty' H. rewrite !calculatePriority_scoreOf.
    cbn [withType type severity]. rewrite H.
    change (hoursOld (withType r ty) now) with (hoursOld r now).
    change (hoursOld (withType r ty') now) with (hoursOld r now).
    change (estimatedOf (withType r ty)) with (estimatedOf r).
    change (estimatedOf (withType r ty')) with (estimatedOf r).
    pose proof (severity_multiplier_cases (severity r)) as Hm. cbv zeta in Hm.
    destruct Hm as [Hm | [Hm | [Hm | Hm]]]; rewrite Hm;
      destruct (includes _ ty), (Qgtb _ 24), (Qgtb _ 48), (JS.gt_undef _ _);
      vm_compute; reflexivity.
  - intros e e' H. rewrite !calculatePriority_scoreOf.
    cbn [withEstimate type severity].
    change (hoursOld (withEstimate r e) now) with (hoursOld r now).
    change (hoursOld (withEstimate r e') now) with (hoursOld r now).
    change (estimatedOf (withEstimate r e)) with e.
    change (estimatedOf (withEstimate r e')) with e'. rewrite H.
    pose proof (severity_multiplier_cases (severity r)) as Hm. cbv zeta in Hm.
    destruct Hm as [Hm | [Hm | [Hm | Hm]]]; rewrite Hm;
      destruct (includes _ _), (Qgtb _ 24), (Qgtb _ 48), (JS.gt_undef e 10);
      vm_compute; reflexivity.
Qed.

Lemma priority_factors_never_lower_witness :
  PrimFloat.leb (calculatePriority (withType Samples.lowFlood "flood") (Samples.hours 3))
                (calculatePriority (withType Samples.lowFlood "fire") (Samples.hours 3))
  = true /\
  PrimFloat.leb (calculatePriority (withEstimate Samples.lowFlood None) (Samples.hours 3))
                (calculatePriority (withEstimate Samples.lowFlood (Some 11%float))
                                   (Samples.hours 3))
  = true.
Proof.
  destruct (priority_factors_never_lower Samples.lowFlood (Samples.hours 3)) as [H1 H2].
  split; [apply H1; reflexivity | apply H2; reflexivity].
Defined.

Lemma method_keeps_id (d : ReportDocument.t) now :
  reportId (fst (ReportDocument.calculatePriority d now)) = reportId d.
Proof.
  unfold ReportDocument.calculatePriority, setPriority. cbn [fst].
  destruct (PrimFloat.is_nan _); reflexivity.
Qed.

(** What validation lets through, the hook turns into the same document
    with the computed score. *)
Lemma preSave_valid (d : ReportDocument.t) now suf :
  validates d = true ->
  In (severity (report d)) severities /\
  preSave d now suf
  = {| reportId := reportId d;
       priority := calculatePriority (report d) now;
       report := report d |}.
Proof.
  unfold validates. rewrite !andb_true_iff.
  intros [[[[[Hid _] Hsev] _] _] _].
  apply negb_true_iff in Hid. apply includes_In in Hsev.
  split; [exact Hsev|].
  unfold preSave. cbv zeta. rewrite Hid.
  rewrite method_formula by (apply severities_not_inherited; exact Hsev).
  reflexivity.
Qed.

(** X13: [save()] validates before it runs the hook.  A document without
    a report id is refused, although the hook on its own would give it
    one, so that no save ever generates an id.  A document that is saved
    has one of the four severities, keeps its report id and its fields,
    and gets the computed score as its priority, whatever priority it
    held; saving it again at the same instant gives the same document. *)
Theorem save_validates_before_hook (d : ReportDocument.t) (now : Z) (suf suf' : string) :
  (missing (reportId d) = true ->
   save d now suf = None /\
   reportId (preSave d now suf) = Some (newReportId now suf)) /\
  (forall d',
      save d now suf = Some d' ->
      reportId d' = reportId d /\ report d' = report d /\
      In (severity (report d)) severities /\
      priority d' = calculatePriority (report d) now /\
      save d' now suf' = Some d').
Proof.
  split.
  - intros H. split.
    + unfold save, validates. rewrite H. reflexivity.
    + unfold preSave. cbv zeta. rewrite method_keeps_id. cbn [reportId].
      rewrite H. reflexivity.
  - intros d' Hs. unfold save in Hs.
    destruct (validates d) eqn:V; [|discriminate]. injection Hs as <-.
    destruct (preSave_valid d now suf V) as [Hsev ->].
    cbn [reportId report priority]. repeat split; [exact Hsev|].
    set (d' := {| reportId := reportId d;
                  priority := calculatePriority (report d) now;
                  report := report d |}).
    assert (V' : validates d' = true).
    { revert V. unfold validates, d'. cbn [reportId report priority].
      rewrite !andb_true_iff. intros [[[[[Hid Hty] Hs] _] _] Hp].
      destruct (formula_in_range (report d) now) as (n & -> & Hn).
      destruct (small_int_float n Hn) as (_ & -> & ->). tauto. }
    unfold save. rewrite V'.
    destruct (preSave_valid d' now suf' V') as [_ ->]. reflexivity.
Qed.

Lemma save_validates_before_hook_witness :
  (save {| reportId := None; priority := 5; report := Samples.highFlood |}
        (Samples.hours 30) "ZZZZZZ" = None /\
   reportId (preSave {| reportId := None; priority := 5; report := Samples.highFlood |}
                     (Samples.hours 30) "ZZZZZZ")
   = Some (newReportId (Samples.hours 30) "ZZZZZZ")) /\
  priority {| reportId := Some "DR-1-ABCDEF"; priority := 10; report := Samples.highFlood |}
  = calculatePriority Samples.highFlood (Samples.hours 30).
Proof.
  destruct (save_validates_before_hook
              {| reportId := None; priority := 5; report := Samples.highFlood |}
              (Samples.hours 30) "ZZZZZZ" "ZZZZZZ") as [H1 _].
  destruct (save_validates_before_hook
              {| reportId := Some "DR-1-ABCDEF"; priority := 3;
                 report := Samples.highFlood |}
              (Samples.hours 30) "ZZZZZZ" "ZZZZZZ") as [_ H2].
  split; [apply H1; reflexivity|].
  apply (H2 {| reportId := Some "DR-1-ABCDEF"; priority := 10;
               report := Samples.highFlood |}).
  vm_compute. reflexivity.
Defined.

End PriorityMore.

(** * The sensor routes *)

Section SensorRoutesFacts.
Import Sensor Models SensorRoutes.

(** X14: a larger air quality index never gets a better category; an
    index that is not a number (or is undefined) is Severe. *)
Theorem getAQICategory_monotone (a b : float) :
  (PrimFloat.leb a b = true ->
   (indexOf (getAQICategory a) categories <= indexOf (getAQICategory b) categories)%nat) /\
  (PrimFloat.is_nan a = true -> getAQICategory a = "Severe").
Proof.
  split.
  - intros H.
    pose proof (fun t Ht => float_leb_trans a b t H Ht) as Htr.
    unfold getAQICategory.
    repeat match goal with
           | |- context [if PrimFloat.leb ?x ?t then _ else _] =>
               let E := fresh "E" in destruct (PrimFloat.leb x t) eqn:E; cbv iota
           end;
      try (cbn; lia);
      exfalso;
      match goal with
      | E1 : PrimFloat.leb b ?t = true, E2 : PrimFloat.leb a ?t = false |- _ =>
          rewrite (Htr t E1) in E2; discriminate
      end.
  - intros H. unfold getAQICategory.
    rewrite !(float_leb_nan_l a) by exact H. reflexivity.
Qed.

Lemma getAQICategory_monotone_witness :
  (indexOf (getAQICategory 50) categories <= indexOf (getAQICategory 50.5) categories)%nat /\
  getAQICategory PrimFloat.nan = "Severe".
Proof.
  destruct (getAQICategory_monotone 50 50.5) as [H1 _].
  destruct (getAQICategory_monotone PrimFloat.nan 0) as [_ H2].
  split; [apply H1; reflexivity | apply H2; reflexivity].
Defined.

Lemma findSensor_saveSensor_same id db s s' :
  findSensor id db = Some s -> sensorId s' = id ->
  findSensor id (saveSensor s' db) = Some s'.
Proof.
  intros Hf <-. induction db as [|x db IH]; [discriminate|].
  unfold findSensor in *. cbn [find saveSensor] in *.
  destruct (String.eqb_spec (sensorId x) (sensorId s')) as [E | E].
  - cbn [find]. rewrite String.eqb_refl. reflexivity.
  - cbn [find]. destruct (String.eqb_spec (sensorId x) (sensorId s')); [contradiction|].
    apply IH, Hf.
Qed.

Lemma findSensor_saveSensor_other id' db s' :
  id' <> sensorId s' ->
  findSensor id' (saveSensor s' db) = findSensor id' db.
Proof.
  intros Hne. induction db as [|x db IH]; [reflexivity|].
  unfold findSensor in *. cbn [find saveSensor].
  destruct (String.eqb_spec (sensorId x) (sensorId s')) as [E | E]; cbn [find].
  - destruct (String.eqb_spec (sensorId s') id'); [congruence|].
    destruct (String.eqb_spec (sensorId x) id'); [congruence | reflexivity].
  - rewrite IH. reflexivity.
Qed.

Lemma length_saveSensor s' db : length (saveSensor s' db) = length db.
Proof.
  induction db as [|x db IH]; [reflexivity|].
  cbn [saveSensor]. destruct (String.eqb _ _); cbn [length]; congruence.
Qed.

(** X15: [POST /:id/readings] answers 400 to a value that is not a number
    before it looks the sensor up, 404 to an unknown sensor, and 500 when
    the reading is refused on save (a quality outside good, fair and poor,
    or the value [NaN]), leaving the collection as it is in all three
    cases; otherwise it answers 200 with the new current reading, the
    sensor read back by its id holds the value as its latest reading, and
    no other sensor changes. *)
Theorem postReading_behaviour (id : string) (quality : option string) (now : Z)
    (db : list Sensor.t) :
  let q := match quality with Some q => q | None => "good" end in
  postReading id BOther quality now db
  = ({| statusCode := 400; message := "Value must be a number";
        currentReading := None |}, db) /\
  (forall x,
      findSensor id db = None ->
      postReading id (BNumber x) quality now db
      = ({| statusCode := 404; message := "Sensor not found";
            currentReading := None |}, db)) /\
  (forall x s,
      findSensor id db = Some s ->
      ~ In q qualities \/ PrimFloat.is_nan x = true ->
      postReading id (BNumber x) quality now db
      = ({| statusCode := 500; message := "Failed to add sensor reading";
            currentReading := None |}, db)) /\
  (forall x s,
      findSensor id db = Some s ->
      In q qualities -> PrimFloat.is_nan x = false ->
      let res := postReading id (BNumber x) quality now db in
      statusCode (fst res) = 200 /\
      currentReading (fst res) =
        Some {| cr_value := x; cr_timestamp := now; cr_status := getAlertStatus s x |} /\
      findSensor id (snd res) = Some (addReading s x q now) /\
      latestReading (addReading s x q now)
      = Some {| value := x; quality := q; timestamp := now |} /\
      length (snd res) = length db /\
      (forall id', id' <> id -> findSensor id' (snd res) = findSensor id' db)).
Proof.
  intros q.
  assert (Hq : existsb (String.eqb q) qualities = true <-> In q qualities).
  { rewrite existsb_exists. split.
    - intros (y & Hy & E). apply String.eqb_eq in E. subst y. exact Hy.
    - intros H. exists q. split; [exact H | apply String.eqb_refl]. }
  split; [reflexivity|]. split; [|split].
  - intros x H. unfold postReading. rewrite H. reflexivity.
  - intros x s H Hbad. unfold postReading. rewrite H. fold q.
    unfold readingAccepted. cbn [Sensor.quality Sensor.value].
    destruct Hbad as [Hbad | Hbad].
    + destruct (existsb (String.eqb q) qualities) eqn:E; [|reflexivity].
      contradiction Hbad. apply Hq. reflexivity.
    + rewrite Hbad, andb_false_r. reflexivity.
  - intros x s H Hin Hx res. subst res. unfold postReading. rewrite H. fold q.
    unfold readingAccepted. cbn [Sensor.quality Sensor.value].
    apply Hq in Hin. rewrite Hin, Hx.
    cbn [andb negb fst snd statusCode currentReading].
    destruct (findSensor_Some _ _ _ H) as [_ Hid].
    repeat split.
    + apply (findSensor_saveSensor_same _ _ s); [exact H | exact Hid].
    + unfold latestReading. rewrite addReading_readings. apply (last_slice_last 999).
    + apply length_saveSensor.
    + intros id' Hne. apply findSensor_saveSensor_other. cbn [addReading sensorId].
      congruence.
Qed.

Lemma postReading_behaviour_witness :
  postReading "seismic-009" (BNumber 4.5) None Samples.t0 SensorSeed.defaultSensors
  = ({| statusCode := 404; message := "Sensor not found"; currentReading := None |},
     SensorSeed.defaultSensors) /\
  postReading "seismic-001" (BNumber PrimFloat.nan) None Samples.t0
              SensorSeed.defaultSensors
  = ({| statusCode := 500; message := "Failed to add sensor reading";
        currentReading := None |}, SensorSeed.defaultSensors) /\
  statusCode (fst (postReading "seismic-001" (BNumber 4.5) None Samples.t0
                               SensorSeed.defaultSensors)) = 200.
Proof.
  destruct (postReading_behaviour "seismic-009" None Samples.t0 SensorSeed.defaultSensors)
    as (_ & H1 & _).
  destruct (postReading_behaviour "seismic-001" None Samples.t0 SensorSeed.defaultSensors)
    as (_ & _ & H2 & H3).
  split; [apply H1; reflexivity|].
  split; [apply (H2 PrimFloat.nan Samples.seismic001); [reflexivity | right; reflexivity]|].
  apply (H3 4.5%float Samples.seismic001); [reflexivity | left; reflexivity | reflexivity].
Defined.

End SensorRoutesFacts.

(** * The alert routes *)

Section AlertRoutesFacts.
Import SensorService AlertRoutes Debounce.

(** X16: for a critical or warning alert derived from a sensor, the impact
    table of the alert routes gives what the table of the sensor service
    gives, except for temperature sensors: heatwave is not in the table of
    the routes and falls to the default of 1000, as does every type or
    severity that table does not list. *)
Theorem impact_tables_agree :
  (forall ty sev,
      sev = "critical" \/ sev = "warning" ->
      ty <> "temperature" ->
      calculateEstimatedImpact (getAlertType ty) sev = calculateImpact ty sev) /\
  (calculateEstimatedImpact (getAlertType "temperature") "critical" = 1000 /\
   calculateImpact "temperature" "critical" = 12000 /\
   calculateEstimatedImpact (getAlertType "temperature") "warning" = 1000 /\
   calculateImpact "temperature" "warning" = 6000) /\
  (forall ty sev,
      ty <> "earthquake" -> ty <> "flood" -> ty <> "storm" -> ty <> "fire" ->
      ty <> "pollution" ->
      calculateEstimatedImpact ty sev = 1000) /\
  (forall ty sev,
      sev <> "critical" -> sev <> "warning" -> sev <> "moderate" ->
      calculateEstimatedImpact ty sev = 1000).
Proof.
  assert (Hother : forall ty sev,
      ty <> "earthquake" -> ty <> "flood" -> ty <> "storm" -> ty <> "fire" ->
      ty <> "pollution" -> calculateEstimatedImpact ty sev = 1000).
  { intros ty sev H1 H2 H3 H4 H5. unfold calculateEstimatedImpact, AlertRoutes.baseImpact.
    rewrite !lookup_insert_ne, lookup_empty by congruence. reflexivity. }
  split; [|split; [repeat split; vm_compute; reflexivity | split; [exact Hother|]]].
  - intros ty sev Hsev Hty.
    destruct (decide (ty = "seismic")) as [-> | H1];
      [destruct Hsev as [-> | ->]; vm_compute; reflexivity|].
    destruct (decide (ty = "water_level")) as [-> | H2];
      [destruct Hsev as [-> | ->]; vm_compute; reflexivity|].
    destruct (decide (ty = "wind_speed")) as [-> | H3];
      [destruct Hsev as [-> | ->]; vm_compute; reflexivity|].
    destruct (decide (ty = "air_quality")) as [-> | H5];
      [destruct Hsev as [-> | ->]; vm_compute; reflexivity|].
    assert (Ht : getAlertType ty = "other").
    { unfold getAlertType, alertTypeMapping.
      rewrite !lookup_insert_ne, lookup_empty by congruence. reflexivity. }
    rewrite Ht, Hother by discriminate.
    unfold calculateImpact, SensorService.baseImpact.
    rewrite !lookup_insert_ne, lookup_empty by congruence. reflexivity.
  - intros ty sev H1 H2 H3. unfold calculateEstimatedImpact, AlertRoutes.baseImpact.
    destruct (decide (ty = "earthquake")) as [-> | T1];
      [rewrite lookup_insert_eq; unfold impactRow;
       rewrite !lookup_insert_ne, lookup_empty by congruence; reflexivity|].
    destruct (decide (ty = "flood")) as [-> | T2];
      [rewrite lookup_insert_ne, lookup_insert_eq by discriminate; unfold impactRow;
       rewrite !lookup_insert_ne, lookup_empty by congruence; reflexivity|].
    destruct (decide (ty = "storm")) as [-> | T3];
      [rewrite !lookup_insert_ne, lookup_insert_eq by discriminate; unfold impactRow;
       rewrite !lookup_insert_ne, lookup_empty by congruence; reflexivity|].
    destruct (decide (ty = "fire")) as [-> | T4];
      [rewrite !lookup_insert_ne, lookup_insert_eq by discriminate; unfold impactRow;
       rewrite !lookup_insert_ne, lookup_empty by congruence; reflexivity|].
    destruct (decide (ty = "pollution")) as [-> | T5];
      [rewrite !lookup_insert_ne, lookup_insert_eq by discriminate; unfold impactRow;
       rewrite !lookup_insert_ne, lookup_empty by congruence; reflexivity|].
    rewrite !lookup_insert_ne, lookup_empty by congruence. reflexivity.
Qed.

Lemma impact_tables_agree_witness :
  calculateEstimatedImpact (getAlertType "air_quality") "warning"
  = calculateImpact "air_quality" "warning" /\
  calculateEstimatedImpact "heatwave" "critical" = 1000 /\
  calculateEstimatedImpact "earthquake" "info" = 1000.
Proof.
  destruct impact_tables_agree as (H1 & _ & H3 & H4).
  split; [apply H1; [right; reflexivity | discriminate]|].
  split; [apply H3; discriminate | apply H4; discriminate].
Defined.

Lemma saveStored_split id coll d d' :
  findById id coll = Some d -> oid d' = id ->
  exists pre post,
    coll = (pre ++ d :: post)%list /\
    saveStored d' coll = (pre ++ d' :: post)%list /\
    Forall (fun e => oid e <> id) pre.
Proof.
  intros Hf <-. induction coll as [|x coll IH]; [discriminate|].
  unfold findById in *. cbn [find saveStored] in *.
  destruct (String.eqb_spec (oid x) (oid d')) as [E | E].
  - injection Hf as ->. exists [], coll. repeat split. constructor.
  - destruct (IH Hf) as (pre & post & -> & -> & Hpre).
    exists (x :: pre), post. repeat split. constructor; assumption.
Qed.


Lemma findById_Some id coll d : findById id coll = Some d -> oid d = id.
Proof.
  intros H. apply find_some in H as [_ H]. apply String.eqb_eq in H. exact H.
Qed.








Lemma findOne_alertsOf q coll :
  Alert.findOne q (alertsOf coll) = None <->
  Forall (fun e => Alert.matches q (doc e) = false) coll.
Proof.
  rewrite findOne_None, List.Forall_forall. unfold alertsOf. split.
  - intros H e He. apply H, in_map, He.
  - intros H a Ha. apply in_map_iff in Ha as (e & <- & He). apply H, He.
Qed.

(** What the pipeline decides only depends on whether the query finds
    an alert. *)
Lemma alertFor_ext s v now suf l l' :
  (Alert.findOne (recentQuery s (Sensor.getAlertStatus s v) now) l = None <->
   Alert.findOne (recentQuery s (Sensor.getAlertStatus s v) now) l' = None) ->
  alertFor s v now suf l = alertFor s v now suf l'.
Proof.
  intros H. unfold alertFor. destruct (negb _); [|reflexivity].
  destruct (Alert.findOne _ l), (Alert.findOne _ l'); try reflexivity.
  - destruct H as [_ H]. discriminate (H eq_refl).
  - destruct H as [H _]. discriminate (H eq_refl).
Qed.

Lemma matches_withFlags_ack q a b :
  Alert.matches q (withFlags a b (Alert.resolved a)) = Alert.matches q a.
Proof. reflexivity. Qed.

Lemma matches_withFlags_resolved q a b :
  Alert.matches q (withFlags a b true) = false.
Proof.
  unfold Alert.matches, withFlags. cbn.
  rewrite andb_false_r. reflexivity.
Qed.

(** X19: acknowledging an alert never changes what the pipeline decides
    for a reading. *)
Theorem acknowledge_keeps_decision (s : Sensor.t) (v : float) (now : Z) (suf : string)
    (id : string) (tnow : Z) (coll : list Stored) :
  alertFor s v now suf (alertsOf (snd (acknowledge id tnow coll)))
  = alertFor s v now suf (alertsOf coll).
Proof.
  unfold acknowledge. destruct (findById id coll) as [d|] eqn:H; [|reflexivity].
  destruct (Alert.acknowledged (doc d)); [reflexivity|]. cbn [snd].
  match goal with |- context [saveStored ?x coll] => set (d' := x) end.
  destruct (saveStored_split id coll d d' H (findById_Some _ _ _ H))
    as (pre & post & Hc & Hs & _).
  apply alertFor_ext. rewrite Hs, Hc, !findOne_alertsOf, !Forall_app, !Forall_cons.
  subst d'. cbn [doc]. rewrite matches_withFlags_ack. reflexivity.
Qed.

(** X20: resolving the alert that blocks a reading re-arms the pipeline at
    once: with that alert the only one that answers the query, the reading
    creates nothing before the resolution, nothing after an
    acknowledgement, and an alert right after the resolution, even inside
    the five minutes. *)
Theorem resolve_rearms_pipeline (s : Sensor.t) (v : float) (now : Z) (suf : string)
    (id : string) (given : option string) (tnow : Z) (coll : list Stored) (d : Stored) :
  NoDup (map oid coll) ->
  Sensor.getAlertStatus s v <> "normal" ->
  findById id coll = Some d ->
  Alert.matches (recentQuery s (Sensor.getAlertStatus s v) now) (doc d) = true ->
  (forall e, In e coll -> oid e <> id ->
             Alert.matches (recentQuery s (Sensor.getAlertStatus s v) now) (doc e) = false) ->
  alertFor s v now suf (alertsOf coll) = None /\
  alertFor s v now suf (alertsOf (snd (acknowledge id tnow coll))) = None /\
  exists a, alertFor s v now suf (alertsOf (snd (resolve id given tnow coll))) = Some a.
Proof.
  intros Hnd Hn H Hm Hothers.
  assert (Hin : In d coll) by (apply find_some in H as [H _]; exact H).
  assert (Hblocked : alertFor s v now suf (alertsOf coll) = None).
  { apply (alertFor_suppressed _ _ _ _ _ (doc d)); [|exact Hm].
    unfold alertsOf. apply in_map, Hin. }
  split; [exact Hblocked|]. split; [rewrite acknowledge_keeps_decision; exact Hblocked|].
  assert (Hr : Alert.resolved (doc d) = false).
  { unfold Alert.matches in Hm. destruct (Alert.resolved (doc d)); [|reflexivity].
    rewrite andb_false_r in Hm. discriminate. }
  unfold resolve. rewrite H, Hr. cbn [snd].
  match goal with |- context [saveStored ?x coll] => set (d' := x) end.
  pose proof (findById_Some _ _ _ H) as Hid.
  destruct (saveStored_split id coll d d' H Hid) as (pre & post & Hc & Hs & Hpre).
  eexists. apply alertFor_fresh; [exact Hn|].
  rewrite Hs, findOne_alertsOf, Forall_app, Forall_cons.
  rewrite Hc, map_app in Hnd. cbn [map] in Hnd.
  apply NoDup_app in Hnd as (_ & Hdis & Hnd'). apply NoDup_cons in Hnd' as [Hnot _].
  split; [|split].
  - apply List.Forall_forall. intros e He. apply Hothers.
    + rewrite Hc. apply in_app_iff. left. exact He.
    + rewrite List.Forall_forall in Hpre. apply Hpre, He.
  - subst d'. cbn [doc]. apply matches_withFlags_resolved.
  - apply List.Forall_forall. intros e He. apply Hothers.
    + rewrite Hc. apply in_app_iff. right. right. exact He.
    + intros E. apply Hnot. rewrite Hid, <- E. apply list_elem_of_In, in_map, He.
Qed.

Lemma resolve_rearms_pipeline_witness :
  alertFor Samples.seismic001 4.5 (Samples.t0 + 1000) "q7w8e9r0t"
    (alertsOf [ {| oid := "a1"; doc := Samples.firstAlert; acknowledgedAt := None;
                   resolvedAt := None; resolution := None |} ]) = None /\
  alertFor Samples.seismic001 4.5 (Samples.t0 + 1000) "q7w8e9r0t"
    (alertsOf (snd (acknowledge "a1" (Samples.t0 + 500)
                 [ {| oid := "a1"; doc := Samples.firstAlert; acknowledgedAt := None;
                      resolvedAt := None; resolution := None |} ]))) = None /\
  exists a,
    alertFor Samples.seismic001 4.5 (Samples.t0 + 1000) "q7w8e9r0t"
      (alertsOf (snd (resolve "a1" None (Samples.t0 + 500)
                   [ {| oid := "a1"; doc := Samples.firstAlert; acknowledgedAt := None;
                        resolvedAt := None; resolution := None |} ]))) = Some a.
Proof.
  apply (resolve_rearms_pipeline Samples.seismic001 4.5 (Samples.t0 + 1000) "q7w8e9r0t"
           "a1" None (Samples.t0 + 500) _
           {| oid := "a1"; doc := Samples.firstAlert; acknowledgedAt := None;
              resolvedAt := None; resolution := None |}).
  - apply (bool_decide_unpack _). vm_compute. exact I.
  - vm_compute. discriminate.
  - reflexivity.
  - vm_compute. reflexivity.
  - intros e [<- | []] Hne. contradiction Hne. reflexivity.
Defined.

Lemma ForallOrdPairs_replace {A} (R : A -> A -> Prop) pre a a' post :
  (forall x, R x a -> R x a') -> (forall x, R a x -> R a' x) ->
  ForallOrdPairs R (pre ++ a :: post) -> ForallOrdPairs R (pre ++ a' :: post).
Proof.
  intros Hl Hr. induction pre as [|x pre IH]; cbn [app]; intros H;
    inversion H as [|? ? Hx Hrest]; subst.
  - constructor; [|exact Hrest].
    eapply List.Forall_impl; [|exact Hx]. intros y. apply Hr.
  - constructor; [|apply IH, Hrest].
    apply List.Forall_app in Hx as [Hx1 Hx2]. apply List.Forall_app. split; [exact Hx1|].
    inversion Hx2 as [|? ? Hxa Hxp]; subst. constructor; [apply Hl, Hxa | exact Hxp].
Qed.

(** X21: the acknowledge and resolve routes keep unresolved alerts of the
    same sensor, type and severity more than five minutes apart if they
    were. *)
Theorem routes_keep_debounced (id : string) (given : option string) (now : Z)
    (coll : list Stored) :
  debounced (alertsOf coll) ->
  debounced (alertsOf (snd (acknowledge id now coll))) /\
  debounced (alertsOf (snd (resolve id given now coll))).
Proof.
  intros Hd. split.
  - unfold acknowledge. destruct (findById id coll) as [d|] eqn:H; [|exact Hd].
    destruct (Alert.acknowledged (doc d)); [exact Hd|]. cbn [snd].
    match goal with |- context [saveStored ?x coll] => set (d' := x) end.
    destruct (saveStored_split id coll d d' H (findById_Some _ _ _ H))
      as (pre & post & Hc & Hs & _).
    rewrite Hs. rewrite Hc in Hd. unfold alertsOf, debounced in *.
    rewrite map_app in *. cbn [map] in *.
    revert Hd. apply ForallOrdPairs_replace; intros x Hx; exact Hx.
  - unfold resolve. destruct (findById id coll) as [d|] eqn:H; [|exact Hd].
    destruct (Alert.resolved (doc d)); [exact Hd|]. cbn [snd].
    match goal with |- context [saveStored ?x coll] => set (d' := x) end.
    destruct (saveStored_split id coll d d' H (findById_Some _ _ _ H))
      as (pre & post & Hc & Hs & _).
    rewrite Hs. rewrite Hc in Hd. unfold alertsOf, debounced in *.
    rewrite map_app in *. cbn [map] in *.
    revert Hd. apply ForallOrdPairs_replace; intros x _ _; subst d'; cbn; intros;
      discriminate.
Qed.

Lemma routes_keep_debounced_witness :
  debounced (alertsOf (snd (acknowledge "a1" (Samples.t0 + 1000)
                 [ {| oid := "a1"; doc := Samples.firstAlert; acknowledgedAt := None;
                      resolvedAt := None; resolution := None |} ]))) /\
  debounced (alertsOf (snd (resolve "a1" None (Samples.t0 + 1000)
                 [ {| oid := "a1"; doc := Samples.firstAlert; acknowledgedAt := None;
                      resolvedAt := None; resolution := None |} ]))).
Proof.
  apply routes_keep_debounced. repeat constructor.
Defined.

End AlertRoutesFacts.

(** * Alerts for a location *)

Section LocationAlertsFacts.
Import LocationAlerts.
Variable show : float -> string.

Lemma airAlert_cases d :
  airAlert show d = [] \/ exists a, airAlert show d = [a] /\ type a = "air_quality".
Proof.
  unfold airAlert. destruct (aqiOf d) as [v|]; [|left; reflexivity].
  destruct (PrimFloat.ltb 200 v); [right; eexists; split; reflexivity | left; reflexivity].
Qed.

Lemma windAlert_cases d :
  windAlert show d = [] \/ exists a, windAlert show d = [a] /\ type a = "weather".
Proof.
  unfold windAlert. destruct (windOf d) as [v|]; [|left; reflexivity].
  destruct (PrimFloat.ltb 30 v); [right; eexists; split; reflexivity | left; reflexivity].
Qed.

Lemma quakeAlert_cases d :
  quakeAlert show d = [] \/ exists a, quakeAlert show d = [a] /\ type a = "seismic".
Proof.
  unfold quakeAlert. destruct (recentEarthquakes d) as [[|q rest]|]; try (left; reflexivity).
  destruct (magnitude q) as [m|]; [|left; reflexivity].
  destruct (PrimFloat.ltb 4 m); [right; eexists; split; reflexivity | left; reflexivity].
Qed.

(** X22: [generateLocationAlerts] raises at most three alerts, in the
    order air quality, weather, seismic; it raises none when every
    reading is missing; and of the recent earthquakes it only looks at the
    first, so that a list whose first earthquake is not above 4.0 raises
    no seismic alert whatever follows. *)
Theorem generateLocationAlerts_edges (d : LocationData) :
  sublist (map type (generateLocationAlerts show d)) ["air_quality"; "weather"; "seismic"] /\
  (length (generateLocationAlerts show d) <= 3)%nat /\
  generateLocationAlerts show
    {| airQuality := None; weather := None; recentEarthquakes := None |} = [] /\
  (forall q rest,
      generateLocationAlerts show (withQuakes d (Some (q :: rest)))
      = generateLocationAlerts show (withQuakes d (Some [q]))) /\
  (forall q rest,
      JS.gt_undef (magnitude q) 4.0 = false ->
      Forall (fun a => type a <> "seismic")
             (generateLocationAlerts show (withQuakes d (Some (q :: rest))))).
Proof.
  split; [|split; [|split; [reflexivity | split; [reflexivity|]]]].
  - unfold generateLocationAlerts.
    destruct (airAlert_cases d) as [-> | (a & -> & Ha)],
             (windAlert_cases d) as [-> | (w & -> & Hw)],
             (quakeAlert_cases d) as [-> | (q & -> & Hq)];
      cbn [map app]; rewrite ?Ha, ?Hw, ?Hq;
      repeat first [apply sublist_nil | apply sublist_skip | apply sublist_cons].
  - unfold generateLocationAlerts.
    destruct (airAlert_cases d) as [-> | (a & -> & Ha)],
             (windAlert_cases d) as [-> | (w & -> & Hw)],
             (quakeAlert_cases d) as [-> | (q & -> & Hq)];
      cbn [length app]; lia.
  - intros q rest Hq. unfold generateLocationAlerts.
    change (airAlert show (withQuakes d (Some (q :: rest)))) with (airAlert show d).
    change (windAlert show (withQuakes d (Some (q :: rest)))) with (windAlert show d).
    assert (Hnone : quakeAlert show (withQuakes d (Some (q :: rest))) = []).
    { unfold quakeAlert, withQuakes. cbn [recentEarthquakes].
      unfold JS.gt_undef in Hq. destruct (magnitude q); [rewrite Hq|]; reflexivity. }
    rewrite Hnone, app_nil_r.
    destruct (airAlert_cases d) as [-> | (a & -> & Ha)],
             (windAlert_cases d) as [-> | (w & -> & Hw)];
      cbn [app]; repeat constructor; congruence.
Qed.

End LocationAlertsFacts.

Lemma generateLocationAlerts_edges_witness :
  Forall (fun a => LocationAlerts.type a <> "seismic")
         (LocationAlerts.generateLocationAlerts (fun x => JS.toFixed x 1)
            (LocationAlerts.withQuakes
               {| LocationAlerts.airQuality :=
                    Some {| LocationAlerts.aqi := Some 250%float |};
                  LocationAlerts.weather := None;
                  LocationAlerts.recentEarthquakes := None |}
               (Some [ {| LocationAlerts.magnitude := Some 3.5%float |};
                       {| LocationAlerts.magnitude := Some 6.5%float |} ]))).
Proof.
  destruct (generateLocationAlerts_edges (fun x => JS.toFixed x 1)
              {| LocationAlerts.airQuality :=
                   Some {| LocationAlerts.aqi := Some 250%float |};
                 LocationAlerts.weather := None;
                 LocationAlerts.recentEarthquakes := None |}) as (_ & _ & _ & _ & H).
  apply (H {| LocationAlerts.magnitude := Some 3.5%float |}). reflexivity.
Defined.
